(** * pi-retry: a shallow embedding of [src/index.ts]

    The extension keeps five mutable variables in the closure of [piRetry]
    and registers handlers for the host events [turn_end], [agent_end],
    [context], [session_start] (which installs the terminal-input hook) and
    for the [/retry] command.  Each handler is embedded as a computation in
    a small state-and-trace monad: the state is the closure, the trace is
    the ordered list of calls the handler makes on the host. *)

From Stdlib Require Import ZArith NArith List Bool Ascii String Lia.
From Stdlib Require DecimalString DecimalPos.
Import ListNotations.

Local Open Scope Z_scope.

(* ------------------------------------------------------------------ *)
(** ** JavaScript strings *)
(* ------------------------------------------------------------------ *)

(** A JavaScript string is a sequence of UTF-16 code units. *)
Definition jsstring : Type := list N.

(** ASCII literals of the source, written as Rocq strings. *)
Definition str (s : string) : jsstring :=
  map N_of_ascii (list_ascii_of_string s).

Definition jsstring_eqb (a b : jsstring) : bool :=
  if list_eq_dec N.eq_dec a b then true else false.

(** [x === lit] where [x] may be [undefined]. *)
Definition opt_is (x : option jsstring) (lit : jsstring) : bool :=
  match x with
  | Some s => jsstring_eqb s lit
  | None => false
  end.

(** [x || ""] for an optional string. *)
Definition or_empty (x : option jsstring) : jsstring :=
  match x with
  | Some s => s
  | None => []
  end.

(** Number-to-string conversion of template literals, for the integers the
    extension prints. *)
Definition number_to_string (z : Z) : jsstring :=
  match z with
  | Z0 => str "0"
  | Zpos p => str (DecimalString.NilEmpty.string_of_uint (Pos.to_uint p))
  | Zneg p =>
      str "-" ++ str (DecimalString.NilEmpty.string_of_uint (Pos.to_uint p))
  end.

(** ECMAScript LineTerminator code points: LF, CR, LS, PS. *)
Definition is_line_terminator (c : N) : bool :=
  (N.eqb c 10 || N.eqb c 13 || N.eqb c 8232 || N.eqb c 8233)%bool.

(** ECMAScript WhiteSpace code points: TAB, VT, FF, SP, NBSP, ZWNBSP and the
    space separators of Unicode. *)
Definition is_white_space (c : N) : bool :=
  (N.eqb c 9 || N.eqb c 11 || N.eqb c 12 || N.eqb c 32 || N.eqb c 160
   || N.eqb c 65279 || N.eqb c 5760
   || (N.leb 8192 c && N.leb c 8202)
   || N.eqb c 8239 || N.eqb c 8287 || N.eqb c 12288)%bool.

Definition is_trimmed (c : N) : bool :=
  (is_white_space c || is_line_terminator c)%bool.

Fixpoint trim_start (s : jsstring) : jsstring :=
  match s with
  | [] => []
  | c :: s' => if is_trimmed c then trim_start s' else s
  end.

(** [String.prototype.trim]. *)
Definition trim (s : jsstring) : jsstring :=
  rev (trim_start (rev (trim_start s))).

(* ------------------------------------------------------------------ *)
(** ** Regular expressions *)
(* ------------------------------------------------------------------ *)

(** The fragment of ECMAScript regular expressions the three patterns of
    the source use, all of them with the [i] flag and without [g], [y],
    [u] or [s]: literals, [.], [x?], [\b], sequence and alternation. *)
Inductive regex : Type :=
| RChar (c : N)
| RDot
| RWordB
| ROpt (r : regex)
| RSeq (r1 r2 : regex)
| RAlt (r1 r2 : regex).

(** Canonicalize under [i] without [u].  A code unit of 128 or more never
    canonicalizes to one below 128, and every literal of the patterns is
    ASCII, so only the ASCII letters need folding. *)
Definition canonicalize (c : N) : N :=
  if (N.leb 97 c && N.leb c 122)%bool then (c - 32)%N else c.

(** [\w]: the basic word characters (the [u]+[i] extension does not apply). *)
Definition is_word_char (c : N) : bool :=
  ((N.leb 97 c && N.leb c 122) || (N.leb 65 c && N.leb c 90)
   || (N.leb 48 c && N.leb c 57) || N.eqb c 95)%bool.

Definition is_word_at (c : option N) : bool :=
  match c with
  | Some x => is_word_char x
  | None => false
  end.

(** Backtracking matcher: [prev] is the code unit before the current
    position, [s] the rest of the input, [k] the continuation. *)
Fixpoint rmatch (r : regex) (prev : option N) (s : jsstring)
    (k : option N -> jsstring -> bool) : bool :=
  match r with
  | RChar c =>
      match s with
      | x :: s' => N.eqb (canonicalize x) (canonicalize c) && k (Some x) s'
      | [] => false
      end
  | RDot =>
      match s with
      | x :: s' => negb (is_line_terminator x) && k (Some x) s'
      | [] => false
      end
  | RWordB => xorb (is_word_at prev) (is_word_at (hd_error s)) && k prev s
  | ROpt r1 => rmatch r1 prev s k || k prev s
  | RSeq r1 r2 => rmatch r1 prev s (fun p t => rmatch r2 p t k)
  | RAlt r1 r2 => rmatch r1 prev s k || rmatch r2 prev s k
  end.

Definition accept : option N -> jsstring -> bool := fun _ _ => true.

(** Try every start position, left to right. *)
Fixpoint search (r : regex) (prev : option N) (s : jsstring) : bool :=
  rmatch r prev s accept ||
  match s with
  | [] => false
  | x :: s' => search r (Some x) s'
  end.

(** [RegExp.prototype.test] for a pattern without [g] or [y]: it keeps no
    position between calls. *)
Definition test (r : regex) (s : jsstring) : bool := search r None s.

(** A literal run of characters. *)
Fixpoint lit_from (c : N) (cs : list N) : regex :=
  match cs with
  | [] => RChar c
  | d :: ds => RSeq (RChar c) (lit_from d ds)
  end.

(** The patterns have no empty literal; the empty one would match the
    empty string. *)
Definition lit (s : string) : regex :=
  match str s with
  | [] => ROpt RDot
  | c :: cs => lit_from c cs
  end.

(** [a.?b] *)
Definition gap (a b : string) : regex :=
  RSeq (lit a) (RSeq (ROpt RDot) (lit b)).

Fixpoint alts (r : regex) (rs : list regex) : regex :=
  match rs with
  | [] => r
  | r' :: rs' => RAlt r (alts r' rs')
  end.

(* ------------------------------------------------------------------ *)
(** ** Config *)
(* ------------------------------------------------------------------ *)

Definition MAX_RETRIES : Z := 3.
Definition BASE_DELAY_MS : Z := 2000.

Definition RETRY_CUSTOM_TYPE : jsstring := str "__retry_trigger".

(** [/\baborted\b/i] *)
Definition RETRYABLE_PATTERNS : regex :=
  RSeq RWordB (RSeq (lit "aborted") RWordB).

(** [/overloaded|rate.?limit|too many requests|429|500|502|503|504|
     service.?unavailable|server error|internal error|connection.?error|
     connection.?refused|other side closed|fetch failed|upstream.?connect|
     reset before headers|terminated|retry delay/i] *)
Definition BUILTIN_RETRY_PATTERNS : regex :=
  alts (lit "overloaded")
    [ gap "rate" "limit";
      lit "too many requests";
      lit "429"; lit "500"; lit "502"; lit "503"; lit "504";
      gap "service" "unavailable";
      lit "server error";
      lit "internal error";
      gap "connection" "error";
      gap "connection" "refused";
      lit "other side closed";
      lit "fetch failed";
      gap "upstream" "connect";
      lit "reset before headers";
      lit "terminated";
      lit "retry delay" ].

(** [/operation aborted|request was aborted/i], inlined in [agent_end]. *)
Definition USER_ABORT_PATTERNS : regex :=
  RAlt (lit "operation aborted") (lit "request was aborted").

(* ------------------------------------------------------------------ *)
(** ** Data model *)
(* ------------------------------------------------------------------ *)

(** A message of the session, with the fields the handlers read.  The
    handlers read [stopReason] on assistant messages only, which always
    carry one; [errorMessage] and [customType] may be [undefined]. *)
Module Msg.
Record t : Type := mk {
  role : jsstring;
  stopReason : jsstring;
  errorMessage : option jsstring;
  customType : option jsstring
}.
End Msg.

(** [ctx.model]. *)
Module Model.
Record t : Type := mk {
  provider : jsstring;
  name : jsstring;
  id : jsstring;
  api : jsstring
}.
End Model.

(** What the host answers while one handler runs: the properties of [ctx]
    and the results of [ctx.isIdle()], [ctx.ui.getEditorText()],
    [ctx.sessionManager.getSessionId()], [pi.getThinkingLevel()] and
    [new Date().toISOString()]. *)
Module Host.
Record t : Type := mk {
  model : option Model.t;
  cwd : jsstring;
  sessionId : jsstring;
  isIdle : bool;
  editorText : jsstring;
  thinkingLevel : jsstring;
  now : jsstring
}.
End Host.

Inductive LogEvent : Type :=
| retry
| retry_exhausted
| retry_succeeded
| manual_retry.

(** [interface RetryLogEntry]. *)
Module Entry.
Record t : Type := mk {
  timestamp : jsstring;
  event : LogEvent;
  provider : option jsstring;
  model : option jsstring;
  modelId : option jsstring;
  api : option jsstring;
  thinkingLevel : option jsstring;
  stopReason : option jsstring;
  errorMessage : option jsstring;
  attempt : Z;
  maxRetries : Z;
  delayMs : option Z;
  cwd : jsstring;
  sessionId : option jsstring
}.
End Entry.

Inductive NotifyType : Type :=
| info
| warning
| error.

(** The calls a handler makes on its environment, in the order it makes
    them.  [LogRetryEvent] is the call of [logRetryEvent], which appends the
    record to the log file and swallows any failure of the file system. *)
Inductive Call : Type :=
| DateNow
| GetThinkingLevel
| GetSessionId
| IsIdle
| GetEditorText
| LogRetryEvent (entry : Entry.t)
| Notify (message : jsstring) (type : NotifyType)
| SetStatus (key : jsstring) (text : option jsstring)
| SetTimeout (delayMs : Z)
| SendMessage (customType content : jsstring) (display triggerTurn : bool).

(** The variables of the closure of [piRetry]. *)
Record State : Type := mkState {
  retryAttempt : Z;
  lastErrorMessage : jsstring;
  lastStopReason : jsstring;
  lastResponseWasError : bool;
  pendingRetryCleanup : bool
}.

Definition initial : State :=
  {| retryAttempt := 0;
     lastErrorMessage := [];
     lastStopReason := [];
     lastResponseWasError := false;
     pendingRetryCleanup := false |}.

(* ------------------------------------------------------------------ *)
(** ** The handler monad *)
(* ------------------------------------------------------------------ *)

(** A handler body: it reads and writes the closure and emits calls. *)
Definition M (A : Type) : Type := State -> A * State * list Call.

Definition ret {A} (a : A) : M A := fun st => (a, st, []).

Definition bind {A B} (m : M A) (f : A -> M B) : M B :=
  fun st =>
    let '(a, st1, t1) := m st in
    let '(b, st2, t2) := f a st1 in
    (b, st2, t1 ++ t2).

Declare Scope handler_scope.
Delimit Scope handler_scope with handler.
Notation "x <- m ;; f" := (bind m (fun x => f))
  (at level 61, m at next level, right associativity) : handler_scope.
Notation "m ;; f" := (bind m (fun _ => f))
  (at level 61, right associativity) : handler_scope.
Local Open Scope handler_scope.

Definition call (c : Call) : M unit := fun st => (tt, st, [c]).
Definition read {A} (f : State -> A) : M A := fun st => (f st, st, []).
Definition write (f : State -> State) : M unit := fun st => (tt, f st, []).

Definition result {A} (r : A * State * list Call) : A := fst (fst r).
Definition state_of {A} (r : A * State * list Call) : State := snd (fst r).
Definition calls {A} (r : A * State * list Call) : list Call := snd r.

Definition set_retryAttempt (v : Z) (st : State) : State :=
  mkState v (lastErrorMessage st) (lastStopReason st)
    (lastResponseWasError st) (pendingRetryCleanup st).
Definition set_lastErrorMessage (v : jsstring) (st : State) : State :=
  mkState (retryAttempt st) v (lastStopReason st)
    (lastResponseWasError st) (pendingRetryCleanup st).
Definition set_lastStopReason (v : jsstring) (st : State) : State :=
  mkState (retryAttempt st) (lastErrorMessage st) v
    (lastResponseWasError st) (pendingRetryCleanup st).
Definition set_lastResponseWasError (v : bool) (st : State) : State :=
  mkState (retryAttempt st) (lastErrorMessage st) (lastStopReason st)
    v (pendingRetryCleanup st).
Definition set_pendingRetryCleanup (v : bool) (st : State) : State :=
  mkState (retryAttempt st) (lastErrorMessage st) (lastStopReason st)
    (lastResponseWasError st) v.

(** Host queries: each is a call, answered from [ctx]. *)
Definition dateNow (ctx : Host.t) : M jsstring :=
  call DateNow ;; ret (Host.now ctx).
Definition getThinkingLevel (ctx : Host.t) : M jsstring :=
  call GetThinkingLevel ;; ret (Host.thinkingLevel ctx).
Definition getSessionId (ctx : Host.t) : M jsstring :=
  call GetSessionId ;; ret (Host.sessionId ctx).
Definition isIdle (ctx : Host.t) : M bool :=
  call IsIdle ;; ret (Host.isIdle ctx).
Definition getEditorText (ctx : Host.t) : M jsstring :=
  call GetEditorText ;; ret (Host.editorText ctx).

Definition logRetryEvent (entry : Entry.t) : M unit :=
  call (LogRetryEvent entry).

Definition notify (message : jsstring) (type : NotifyType) : M unit :=
  call (Notify message type).

Definition setStatus (key : jsstring) (text : option jsstring) : M unit :=
  call (SetStatus key text).

(** The object literal passed to [logRetryEvent]: its properties are
    evaluated in source order, so the clock is read first, then the thinking
    level, then the session id. *)
Definition build_entry (ctx : Host.t) (event : LogEvent)
    (stopReason errorMessage : option jsstring)
    (attempt maxRetries : Z) (delayMs : option Z) : M Entry.t :=
  timestamp <- dateNow ctx ;;
  thinkingLevel <- getThinkingLevel ctx ;;
  sessionId <- getSessionId ctx ;;
  ret {| Entry.timestamp := timestamp;
         Entry.event := event;
         Entry.provider := option_map Model.provider (Host.model ctx);
         Entry.model := option_map Model.name (Host.model ctx);
         Entry.modelId := option_map Model.id (Host.model ctx);
         Entry.api := option_map Model.api (Host.model ctx);
         Entry.thinkingLevel := Some thinkingLevel;
         Entry.stopReason := stopReason;
         Entry.errorMessage := errorMessage;
         Entry.attempt := attempt;
         Entry.maxRetries := maxRetries;
         Entry.delayMs := delayMs;
         Entry.cwd := Host.cwd ctx;
         Entry.sessionId := Some sessionId |}.

(* ------------------------------------------------------------------ *)
(** ** The handlers *)
(* ------------------------------------------------------------------ *)

Definition is_role (m : Msg.t) (r : string) : bool :=
  jsstring_eqb (Msg.role m) (str r).

Definition is_failure (stopReason : jsstring) : bool :=
  (jsstring_eqb stopReason (str "error")
   || jsstring_eqb stopReason (str "aborted"))%bool.

Definition status_key : jsstring := str "pi-retry".

(** [function triggerRetry(pi)] *)
Definition triggerRetry : M unit :=
  write (set_pendingRetryCleanup true) ;;
  call (SendMessage RETRY_CUSTOM_TYPE (str "Retrying.") false true).

(** [triggerRetry] with what happens inside [pi.sendMessage] made
    explicit.  JavaScript runs one thing at a time, so between the
    assignment to [pendingRetryCleanup] and the return of [sendMessage] the
    closure can only be seen by handlers that the host calls from inside
    [sendMessage]; [during] stands for those. *)
Definition triggerRetry_during {A} (during : M A) : M A :=
  write (set_pendingRetryCleanup true) ;;
  call (SendMessage RETRY_CUSTOM_TYPE (str "Retrying.") false true) ;;
  during.

(** [pi.on("turn_end", ...)] *)
Definition turn_end (msg : Msg.t) (ctx : Host.t) : M unit :=
  if (is_role msg "assistant"
      && negb (jsstring_eqb (Msg.stopReason msg) (str "error"))
      && negb (jsstring_eqb (Msg.stopReason msg) (str "aborted")))%bool
  then
    write (set_lastResponseWasError false) ;;
    n <- read retryAttempt ;;
    if n >? 0 then
      stopReason <- read lastStopReason ;;
      errorMessage <- read lastErrorMessage ;;
      entry <- build_entry ctx retry_succeeded (Some stopReason)
                 (Some errorMessage) n MAX_RETRIES None ;;
      logRetryEvent entry ;;
      notify (str "Retry succeeded on attempt " ++ number_to_string n
              ++ str ".") info ;;
      setStatus status_key None ;;
      write (set_retryAttempt 0) ;;
      write (set_lastErrorMessage []) ;;
      write (set_lastStopReason [])
    else ret tt
  else ret tt.

(** The scan of [agent_end] for the last assistant message, from the end
    of the list towards its start. *)
Definition last_assistant (messages : list Msg.t) : option Msg.t :=
  find (fun m => is_role m "assistant") (rev messages).

(** [BASE_DELAY_MS * 2 ** (retryAttempt - 1)].  On integers; the exponent is
    never negative where the handler computes it. *)
Definition backoff (attempt : Z) : Z := BASE_DELAY_MS * 2 ^ (attempt - 1).

(** [(delayMs / 1000).toFixed(0)] for a delay that is not negative and
    whose seconds stay below 10^21, where [toFixed] prints plain digits:
    the nearest integer, the larger one on a tie. *)
Definition seconds_fixed (delayMs : Z) : jsstring :=
  number_to_string ((delayMs + 500) / 1000).

Definition exhausted_text (errorMessage : jsstring) : jsstring :=
  str "Stream error persisted after " ++ number_to_string MAX_RETRIES
  ++ str " retries: " ++ errorMessage.

Definition status_text (errorMessage : jsstring) (attempt delayMs : Z)
    : jsstring :=
  str "Stream error " ++ [34%N] ++ errorMessage ++ [34%N]
  ++ str ", retrying (" ++ number_to_string attempt ++ str "/"
  ++ number_to_string MAX_RETRIES ++ str ") in " ++ seconds_fixed delayMs
  ++ str "s" ++ [8230%N].

(** How a run of [agent_end] leaves the event loop: it has returned, or it
    is suspended at [await new Promise(resolve => setTimeout(resolve,
    delayMs))]. *)
Inductive Completion : Type :=
| Returned
| Awaiting (delayMs : Z).

(** [pi.on("agent_end", ...)], up to its return or its [await]. *)
Definition agent_end (messages : list Msg.t) (ctx : Host.t) : M Completion :=
  match last_assistant messages with
  | None => ret Returned
  | Some lastAssistant =>
    let stopReason := Msg.stopReason lastAssistant in
    let errorMessage := or_empty (Msg.errorMessage lastAssistant) in
    (if is_failure stopReason
     then write (set_lastResponseWasError true) else ret tt) ;;
    if (jsstring_eqb stopReason (str "aborted")
        && test USER_ABORT_PATTERNS errorMessage)%bool then ret Returned
    else if negb (is_failure stopReason) then ret Returned
    else if test BUILTIN_RETRY_PATTERNS errorMessage then ret Returned
    else if negb (test RETRYABLE_PATTERNS errorMessage) then ret Returned
    else
      write (fun st => set_retryAttempt (retryAttempt st + 1) st) ;;
      write (set_lastErrorMessage errorMessage) ;;
      write (set_lastStopReason stopReason) ;;
      n <- read retryAttempt ;;
      if n >? MAX_RETRIES then
        entry <- build_entry ctx retry_exhausted (Some stopReason)
                   (Some errorMessage) (n - 1) MAX_RETRIES None ;;
        logRetryEvent entry ;;
        notify (exhausted_text errorMessage) error ;;
        setStatus status_key None ;;
        write (set_retryAttempt 0) ;;
        write (set_lastErrorMessage []) ;;
        write (set_lastStopReason []) ;;
        ret Returned
      else
        let delayMs := backoff n in
        entry <- build_entry ctx retry (Some stopReason)
                   (Some errorMessage) n MAX_RETRIES (Some delayMs) ;;
        logRetryEvent entry ;;
        setStatus status_key (Some (status_text errorMessage n delayMs)) ;;
        call (SetTimeout delayMs) ;;
        ret (Awaiting delayMs)
  end.

(** The rest of [agent_end], run when the timer fires. *)
Definition agent_end_resume : M unit :=
  setStatus status_key None ;;
  triggerRetry.

(** A run of [agent_end] with no other handler in between. *)
Definition agent_end_run (messages : list Msg.t) (ctx : Host.t) : M unit :=
  c <- agent_end messages ctx ;;
  match c with
  | Returned => ret tt
  | Awaiting _ => agent_end_resume
  end.

(** The handler of [pi.registerCommand("retry", ...)]. *)
Definition retry_command (ctx : Host.t) : M unit :=
  idle <- isIdle ctx ;;
  if negb idle then
    notify (str "Agent is still running.") warning
  else
    failed <- read lastResponseWasError ;;
    if negb failed then
      notify (str "Nothing to retry " ++ [8212%N]
              ++ str " last response completed successfully.") warning
    else
      entry <- build_entry ctx manual_retry None None 1 1 None ;;
      logRetryEvent entry ;;
      triggerRetry.

(** The value the terminal-input hook returns: [undefined], or an object
    with [consume]. *)
Record InputResult : Type := mkInputResult { consume : bool }.

Section TerminalInput.

(** [matchesKey] of the terminal library, imported by the source. *)
Variable matchesKey : jsstring -> jsstring -> bool.

(** The hook that [session_start] passes to [ctx.ui.onTerminalInput]. *)
Definition onTerminalInput (ctx : Host.t) (data : jsstring)
    : M (option InputResult) :=
  if negb (matchesKey data (str "enter")) then ret None
  else
    failed <- read lastResponseWasError ;;
    if negb failed then ret None
    else
      idle <- isIdle ctx ;;
      if negb idle then ret None
      else
        text <- getEditorText ctx ;;
        if negb (jsstring_eqb (trim text) []) then ret None
        else
          entry <- build_entry ctx manual_retry None None 1 1 None ;;
          logRetryEvent entry ;;
          triggerRetry ;;
          ret (Some {| consume := true |}).

End TerminalInput.

Definition is_marker (msg : Msg.t) : bool :=
  (is_role msg "custom" && opt_is (Msg.customType msg) RETRY_CUSTOM_TYPE)%bool.

(** [pi.on("context", ...)]: [undefined], or the replacement list. *)
Definition context (messages : list Msg.t) : M (option (list Msg.t)) :=
  pending <- read pendingRetryCleanup ;;
  if negb pending then ret None
  else
    write (set_pendingRetryCleanup false) ;;
    let cleaned := filter (fun msg => negb (is_marker msg)) messages in
    ret (Some cleaned).

(* ------------------------------------------------------------------ *)
(** ** The classification of [agent_end], as predicates on a message *)
(* ------------------------------------------------------------------ *)

Definition error_text (m : Msg.t) : jsstring := or_empty (Msg.errorMessage m).

(** The user-initiated abort that [agent_end] never retries. *)
Definition user_abort (m : Msg.t) : bool :=
  (jsstring_eqb (Msg.stopReason m) (str "aborted")
   && test USER_ABORT_PATTERNS (error_text m))%bool.

(** A failure that the built-in retry of the host covers. *)
Definition deferred (m : Msg.t) : bool :=
  (is_failure (Msg.stopReason m)
   && test BUILTIN_RETRY_PATTERNS (error_text m))%bool.

(** A failure for which [agent_end] reaches [retryAttempt++]. *)
Definition auto_retryable (m : Msg.t) : bool :=
  (is_failure (Msg.stopReason m)
   && negb (user_abort m)
   && negb (test BUILTIN_RETRY_PATTERNS (error_text m))
   && test RETRYABLE_PATTERNS (error_text m))%bool.

(** The three log records of the automatic path, and the manual one. *)
Definition entry_for (ctx : Host.t) (event : LogEvent)
    (stopReason errorMessage : option jsstring)
    (attempt maxRetries : Z) (delayMs : option Z) : Entry.t :=
  {| Entry.timestamp := Host.now ctx;
     Entry.event := event;
     Entry.provider := option_map Model.provider (Host.model ctx);
     Entry.model := option_map Model.name (Host.model ctx);
     Entry.modelId := option_map Model.id (Host.model ctx);
     Entry.api := option_map Model.api (Host.model ctx);
     Entry.thinkingLevel := Some (Host.thinkingLevel ctx);
     Entry.stopReason := stopReason;
     Entry.errorMessage := errorMessage;
     Entry.attempt := attempt;
     Entry.maxRetries := maxRetries;
     Entry.delayMs := delayMs;
     Entry.cwd := Host.cwd ctx;
     Entry.sessionId := Some (Host.sessionId ctx) |}.

(** The calls that building and logging a record makes. *)
Definition logged (e : Entry.t) : list Call :=
  [DateNow; GetThinkingLevel; GetSessionId; LogRetryEvent e].

Definition trigger_call : Call :=
  SendMessage RETRY_CUSTOM_TYPE (str "Retrying.") false true.

(** The closure after an episode ends: counter and stored texts cleared. *)
Definition reset_episode (st : State) : State :=
  mkState 0 [] [] (lastResponseWasError st) (pendingRetryCleanup st).

Definition is_send (c : Call) : bool :=
  match c with
  | SendMessage _ _ _ _ => true
  | _ => false
  end.

Definition is_any_log (c : Call) : bool :=
  match c with
  | LogRetryEvent _ => true
  | _ => false
  end.

(** The code unit before the position that follows [p]. *)
Fixpoint last_or (prev : option N) (p : jsstring) : option N :=
  match p with
  | [] => prev
  | x :: p' => last_or (Some x) p'
  end.

(* ------------------------------------------------------------------ *)
(** ** Example inputs *)
(* ------------------------------------------------------------------ *)

Module Examples.

Definition ctx : Host.t :=
  {| Host.model :=
       Some {| Model.provider := str "anthropic"; Model.name := str "m";
               Model.id := str "m-1"; Model.api := str "messages" |};
     Host.cwd := str "/work";
     Host.sessionId := str "s-1";
     Host.isIdle := true;
     Host.editorText := [];
     Host.thinkingLevel := str "off";
     Host.now := str "2025-01-01T00:00:00.000Z" |}.

Definition busy : Host.t :=
  {| Host.model := None; Host.cwd := str "/work";
     Host.sessionId := str "s-1"; Host.isIdle := false;
     Host.editorText := []; Host.thinkingLevel := str "off";
     Host.now := str "2025-01-01T00:00:00.000Z" |}.

Definition typing : Host.t :=
  {| Host.model := None; Host.cwd := str "/work";
     Host.sessionId := str "s-1"; Host.isIdle := true;
     Host.editorText := str "hello"; Host.thinkingLevel := str "off";
     Host.now := str "2025-01-01T00:00:00.000Z" |}.

Definition user : Msg.t :=
  {| Msg.role := str "user"; Msg.stopReason := [];
     Msg.errorMessage := None; Msg.customType := None |}.

Definition assistant (stopReason errorMessage : string) : Msg.t :=
  {| Msg.role := str "assistant"; Msg.stopReason := str stopReason;
     Msg.errorMessage := Some (str errorMessage);
     Msg.customType := None |}.

Definition marker : Msg.t :=
  {| Msg.role := str "custom"; Msg.stopReason := [];
     Msg.errorMessage := None;
     Msg.customType := Some RETRY_CUSTOM_TYPE |}.

(** A run that ends in an abort by an upstream proxy. *)
Definition upstream_abort : list Msg.t :=
  [user; assistant "aborted" "upstream aborted connection"].

(** A failure whose text has both "aborted" and a host-covered text. *)
Definition aborted_and_covered : list Msg.t :=
  [user; assistant "error" "stream aborted: 503 rate limit"].

(** The user pressed ESC. *)
Definition cancelled : list Msg.t :=
  [user; assistant "aborted" "Request was aborted."].

(** The key test of the terminal library, reduced to carriage return. *)
Definition matchesKey (data key : jsstring) : bool :=
  (jsstring_eqb key (str "enter") && jsstring_eqb data [13%N])%bool.

End Examples.

(* ------------------------------------------------------------------ *)
(** ** What the handlers say and log *)
(* ------------------------------------------------------------------ *)

Definition succeeded_text (attempt : Z) : jsstring :=
  str "Retry succeeded on attempt " ++ number_to_string attempt ++ str ".".

(** A turn that counts as a success for [turn_end]. *)
Definition completed (msg : Msg.t) : bool :=
  (is_role msg "assistant"
   && negb (jsstring_eqb (Msg.stopReason msg) (str "error"))
   && negb (jsstring_eqb (Msg.stopReason msg) (str "aborted")))%bool.

Definition busy_text : jsstring := str "Agent is still running.".

Definition nothing_text : jsstring :=
  str "Nothing to retry " ++ [8212%N]
  ++ str " last response completed successfully.".

(** The calls of a manual retry that passes its gate, after the gate. *)
Definition manual_calls (ctx : Host.t) : list Call :=
  logged (entry_for ctx manual_retry None None 1 1 None) ++ [trigger_call].

(** The interceptor with its checks in the order the specification
    gives: key, editor text, then the gate (idle, last turn failed). *)
Definition onTerminalInput_spec_order
    (matchesKey : jsstring -> jsstring -> bool) (ctx : Host.t)
    (data : jsstring) : M (option InputResult) :=
  if negb (matchesKey data (str "enter")) then ret None
  else
    text <- getEditorText ctx ;;
    if negb (jsstring_eqb (trim text) []) then ret None
    else
      idle <- isIdle ctx ;;
      if negb idle then ret None
      else
        failed <- read lastResponseWasError ;;
        if negb failed then ret None
        else
          entry <- build_entry ctx manual_retry None None 1 1 None ;;
          logRetryEvent entry ;;
          triggerRetry ;;
          ret (Some {| consume := true |}).

(** All four conditions of the interceptor. *)
Definition enter_gate (matchesKey : jsstring -> jsstring -> bool)
    (ctx : Host.t) (data : jsstring) (st : State) : bool :=
  (matchesKey data (str "enter")
   && lastResponseWasError st
   && Host.isIdle ctx
   && jsstring_eqb (trim (Host.editorText ctx)) [])%bool.

(* ------------------------------------------------------------------ *)
(** ** The scrubbed list *)
(* ------------------------------------------------------------------ *)

Definition scrub (messages : list Msg.t) : list Msg.t :=
  filter (fun msg => negb (is_marker msg)) messages.

Definition count_markers (messages : list Msg.t) : nat :=
  List.length (filter is_marker messages).

(** The list the host sends to the model after the handler has run: the
    replacement if the handler returned one, its own list otherwise. *)
Definition assembled (messages : list Msg.t) (st : State) : list Msg.t :=
  match result (context messages st) with
  | Some cleaned => cleaned
  | None => messages
  end.

(** The history of the second automatic retry of an episode: the session
    is append-only, so the trigger of the first retry is still in it. *)
Definition second_retry_history : list Msg.t :=
  [ Examples.user;
    Examples.assistant "aborted" "upstream aborted connection";
    Examples.marker;
    Examples.assistant "aborted" "upstream aborted connection";
    Examples.marker ].

(* ------------------------------------------------------------------ *)
(** ** The extension in the event loop *)
(* ------------------------------------------------------------------ *)

(** The events the host delivers.  [TimerFired] ends the backoff wait of
  one suspended run of [agent_end]. *)
Inductive HostEvent : Type :=
| TurnEnd (message : Msg.t) (ctx : Host.t)
| AgentEnd (messages : list Msg.t) (ctx : Host.t)
| ContextAssembly (messages : list Msg.t)
| RetryCommand (ctx : Host.t)
| TerminalInput (ctx : Host.t) (data : jsstring)
| TimerFired.

(** The closure between two handler runs, and the number of runs of
    [agent_end] that wait for their timer. *)
Record Sys : Type := mkSys {
  closure : State;
  suspended : nat
  }.

(** One event handled to its return or to its [await].  The terminal hook
    exists once [session_start] has run; letting the input event occur at
    any time only adds behaviours. *)
Definition deliver (matchesKey : jsstring -> jsstring -> bool)
      (ev : HostEvent) (s : Sys) : option Sys :=
  match ev with
  | TurnEnd message ctx =>
      Some (mkSys (state_of (turn_end message ctx (closure s))) (suspended s))
  | AgentEnd messages ctx =>
      let r := agent_end messages ctx (closure s) in
      Some (mkSys (state_of r)
              (match result r with
               | Returned => suspended s
               | Awaiting _ => S (suspended s)
               end))
  | ContextAssembly messages =>
      Some (mkSys (state_of (context messages (closure s))) (suspended s))
  | RetryCommand ctx =>
      Some (mkSys (state_of (retry_command ctx (closure s))) (suspended s))
  | TerminalInput ctx data =>
      Some (mkSys (state_of (onTerminalInput matchesKey ctx data (closure s)))
              (suspended s))
  | TimerFired =>
      match suspended s with
      | O => None
      | S k => Some (mkSys (state_of (agent_end_resume (closure s))) k)
      end
  end.

Inductive reachable (matchesKey : jsstring -> jsstring -> bool)
    : Sys -> Prop :=
| reachable_start : reachable matchesKey (mkSys initial 0)
| reachable_deliver (s s' : Sys) (ev : HostEvent) :
    reachable matchesKey s -> deliver matchesKey ev s = Some s' ->
    reachable matchesKey s'.

Definition in_range (st : State) : Prop :=
  0 <= retryAttempt st <= MAX_RETRIES.

(* ------------------------------------------------------------------ *)
(** ** Vocabulary for texts, runs and records *)
(* ------------------------------------------------------------------ *)

(** [w] occurs in [s] up to the case of ASCII letters. *)
Definition contains_ci (w s : jsstring) : Prop :=
  exists p u q, s = p ++ u ++ q /\ map canonicalize u = map canonicalize w.

(** [w] occurs in [s] up to case, as a whole word: no word character
    stands right before it or right after it. *)
Definition contains_word_ci (w s : jsstring) : Prop :=
  exists p u q,
    s = p ++ u ++ q /\ map canonicalize u = map canonicalize w /\
    is_word_at (last_or None p) = false /\ is_word_at (hd_error q) = false.

(** The calls an event makes when the loop delivers it. *)
Definition deliver_calls (matchesKey : jsstring -> jsstring -> bool)
    (ev : HostEvent) (s : Sys) : list Call :=
  match ev with
  | TurnEnd message ctx => calls (turn_end message ctx (closure s))
  | AgentEnd messages ctx => calls (agent_end messages ctx (closure s))
  | ContextAssembly messages => calls (context messages (closure s))
  | RetryCommand ctx => calls (retry_command ctx (closure s))
  | TerminalInput ctx data =>
      calls (onTerminalInput matchesKey ctx data (closure s))
  | TimerFired =>
      match suspended s with
      | O => []
      | S _ => calls (agent_end_resume (closure s))
      end
  end.

(** A sequence of events delivered in order: the configuration reached and
    all the calls made, or nothing if a timer fires that was never set. *)
Fixpoint run (matchesKey : jsstring -> jsstring -> bool)
    (events : list HostEvent) (s : Sys) : option (Sys * list Call) :=
  match events with
  | [] => Some (s, [])
  | ev :: rest =>
      match deliver matchesKey ev s with
      | None => None
      | Some s1 =>
          match run matchesKey rest s1 with
          | None => None
          | Some (s2, tr) => Some (s2, deliver_calls matchesKey ev s ++ tr)
          end
      end
  end.

(** What a well-formed log record is, by kind. *)
Definition entry_ok (e : Entry.t) : Prop :=
  match Entry.event e with
  | retry =>
      1 <= Entry.attempt e <= MAX_RETRIES /\
      Entry.maxRetries e = MAX_RETRIES /\
      Entry.delayMs e = Some (BASE_DELAY_MS * 2 ^ (Entry.attempt e - 1))
  | retry_exhausted =>
      Entry.attempt e = MAX_RETRIES /\
      Entry.maxRetries e = MAX_RETRIES /\ Entry.delayMs e = None
  | retry_succeeded =>
      1 <= Entry.attempt e <= MAX_RETRIES /\
      Entry.maxRetries e = MAX_RETRIES /\ Entry.delayMs e = None
  | manual_retry =>
      Entry.attempt e = 1 /\ Entry.maxRetries e = 1 /\
      Entry.delayMs e = None /\
      Entry.stopReason e = None /\ Entry.errorMessage e = None
  end.

Definition call_ok (c : Call) : Prop :=
  match c with
  | LogRetryEvent e => entry_ok e
  | SetTimeout d => d = 2000 \/ d = 4000 \/ d = 8000
  | SendMessage customType content display triggerTurn =>
      customType = RETRY_CUSTOM_TYPE /\ content = str "Retrying." /\
      display = false /\ triggerTurn = true
  | SetStatus key _ => key = status_key
  | _ => True
  end.

(** The stored episode agrees with the counter. *)
Definition episode_ok (st : State) : Prop :=
  0 <= retryAttempt st <= MAX_RETRIES /\
  (retryAttempt st = 0 ->
     lastErrorMessage st = [] /\ lastStopReason st = []) /\
  (retryAttempt st > 0 ->
     lastResponseWasError st = true /\
     is_failure (lastStopReason st) = true /\
     test RETRYABLE_PATTERNS (lastErrorMessage st) = true /\
     test BUILTIN_RETRY_PATTERNS (lastErrorMessage st) = false).

(** [k] runs of [agent_end] in a row on the same failed run, each to its
    end (the backoff wait elapsed, the trigger sent). *)
Fixpoint failures (k : nat) (messages : list Msg.t) (ctx : Host.t)
    (st : State) : State :=
  match k with
  | O => st
  | S k' =>
      state_of (agent_end_run messages ctx (failures k' messages ctx st))
  end.

(** [n] triggers in a row. *)
Fixpoint triggers (n : nat) (st : State) : State :=
  match n with
  | O => st
  | S n' => state_of (triggerRetry (triggers n' st))
  end.

(* ------------------------------------------------------------------ *)
(** ** Reading a number back *)
(* ------------------------------------------------------------------ *)

(** The value of a decimal digit, given as a code unit. *)
Definition digit_value (c : N) : option Z :=
  if (N.leb 48 c && N.leb c 57)%bool then Some (Z.of_N (c - 48)) else None.

(** The number that a run of decimal digits denotes, read from the left;
    nothing if a code unit is no digit. *)
Fixpoint digits_value (acc : Z) (s : jsstring) : option Z :=
  match s with
  | [] => Some acc
  | c :: s' =>
      match digit_value c with
      | Some d => digits_value (10 * acc + d) s'
      | None => None
      end
  end.

Definition decimal_value (s : jsstring) : option Z := digits_value 0 s.

(* ------------------------------------------------------------------ *)
(** ** Equality of strings *)
(* ------------------------------------------------------------------ *)

Lemma jsstring_eqb_eq (a b : jsstring) : jsstring_eqb a b = true <-> a = b.
Proof.
  unfold jsstring_eqb. destruct (list_eq_dec N.eq_dec a b); split; congruence.
Qed.

Lemma jsstring_eqb_refl (a : jsstring) : jsstring_eqb a a = true.
Proof. now apply jsstring_eqb_eq. Qed.

(* ------------------------------------------------------------------ *)
(** ** Running the handlers symbolically *)
(* ------------------------------------------------------------------ *)

Arguments test : simpl never.
Arguments str : simpl never.
Arguments number_to_string : simpl never.
Arguments backoff : simpl never.

Ltac run :=
  cbv [bind ret call read write logRetryEvent notify setStatus build_entry
       dateNow getThinkingLevel getSessionId isIdle getEditorText
       triggerRetry agent_end_resume];
  cbn [app fst snd].

(* ------------------------------------------------------------------ *)
(** ** The paths of [agent_end] *)
(* ------------------------------------------------------------------ *)

Lemma agent_end_none (messages : list Msg.t) (ctx : Host.t) (st : State) :
  last_assistant messages = None ->
  agent_end messages ctx st = (Returned, st, []).
Proof.
  intros H. unfold agent_end. rewrite H. reflexivity.
Qed.

Lemma agent_end_user_abort (messages : list Msg.t) (ctx : Host.t)
    (st : State) (m : Msg.t) :
  last_assistant messages = Some m ->
  user_abort m = true ->
  agent_end messages ctx st = (Returned, set_lastResponseWasError true st, []).
Proof.
  intros Hlast Hab. unfold agent_end. rewrite Hlast. cbv zeta.
  unfold user_abort, error_text in Hab.
  apply andb_true_iff in Hab as [Hsr Hpat].
  assert (Hf : is_failure (Msg.stopReason m) = true).
  { unfold is_failure. rewrite Hsr. apply orb_true_r. }
  rewrite Hf, Hsr, Hpat. reflexivity.
Qed.

Lemma agent_end_not_failure (messages : list Msg.t) (ctx : Host.t)
    (st : State) (m : Msg.t) :
  last_assistant messages = Some m ->
  is_failure (Msg.stopReason m) = false ->
  agent_end messages ctx st = (Returned, st, []).
Proof.
  intros Hlast Hf. unfold agent_end. rewrite Hlast. cbv zeta.
  rewrite Hf.
  assert (Hsr : jsstring_eqb (Msg.stopReason m) (str "aborted") = false).
  { unfold is_failure in Hf. apply orb_false_iff in Hf. tauto. }
  rewrite Hsr. reflexivity.
Qed.

Lemma agent_end_deferred (messages : list Msg.t) (ctx : Host.t)
    (st : State) (m : Msg.t) :
  last_assistant messages = Some m ->
  deferred m = true ->
  agent_end messages ctx st = (Returned, set_lastResponseWasError true st, []).
Proof.
  intros Hlast Hd.
  destruct (user_abort m) eqn:Hab.
  - now apply agent_end_user_abort with (m := m).
  - unfold deferred, error_text in Hd. apply andb_true_iff in Hd as [Hf Hpat].
    unfold user_abort, error_text in Hab.
    unfold agent_end. rewrite Hlast. cbv zeta.
    rewrite Hf, Hab, Hpat. reflexivity.
Qed.

Lemma agent_end_unmatched (messages : list Msg.t) (ctx : Host.t)
    (st : State) (m : Msg.t) :
  last_assistant messages = Some m ->
  is_failure (Msg.stopReason m) = true ->
  test RETRYABLE_PATTERNS (error_text m) = false ->
  agent_end messages ctx st = (Returned, set_lastResponseWasError true st, []).
Proof.
  intros Hlast Hf Hr.
  destruct (user_abort m) eqn:Hab.
  - now apply agent_end_user_abort with (m := m).
  - destruct (deferred m) eqn:Hd.
    + now apply agent_end_deferred with (m := m).
    + unfold deferred in Hd. rewrite Hf in Hd. cbn [andb] in Hd.
      unfold user_abort, error_text in *.
      unfold agent_end. rewrite Hlast. cbv zeta.
      rewrite Hf, Hab, Hd, Hr. reflexivity.
Qed.

(** The two outcomes of an auto-retryable failure. *)
Lemma agent_end_retryable (messages : list Msg.t) (ctx : Host.t)
    (st : State) (m : Msg.t) :
  last_assistant messages = Some m ->
  auto_retryable m = true ->
  agent_end messages ctx st =
    let n := retryAttempt st + 1 in
    let failed := set_lastResponseWasError true st in
    if n >? MAX_RETRIES then
      (Returned,
       reset_episode failed,
       logged (entry_for ctx retry_exhausted (Some (Msg.stopReason m))
                 (Some (error_text m)) (n - 1) MAX_RETRIES None)
       ++ [Notify (exhausted_text (error_text m)) error;
           SetStatus status_key None])
    else
      (Awaiting (backoff n),
       mkState n (error_text m) (Msg.stopReason m) true
         (pendingRetryCleanup st),
       logged (entry_for ctx retry (Some (Msg.stopReason m))
                 (Some (error_text m)) n MAX_RETRIES (Some (backoff n)))
       ++ [SetStatus status_key
             (Some (status_text (error_text m) n (backoff n)));
           SetTimeout (backoff n)]).
Proof.
  intros Hlast Ha. unfold auto_retryable in Ha.
  repeat (apply andb_true_iff in Ha; destruct Ha as [Ha ?]).
  rename Ha into Hf.
  match goal with H : negb (user_abort m) = true |- _ =>
    apply negb_true_iff in H; unfold user_abort, error_text in H end.
  match goal with H : negb (test BUILTIN_RETRY_PATTERNS _) = true |- _ =>
    apply negb_true_iff in H; unfold error_text in H end.
  match goal with H : test RETRYABLE_PATTERNS _ = true |- _ =>
    unfold error_text in H end.
  unfold agent_end. rewrite Hlast. cbv zeta.
  repeat match goal with H : _ = _ :> bool |- _ => rewrite H; clear H end.
  cbn [negb]. run.
  cbn [retryAttempt set_retryAttempt set_lastErrorMessage set_lastStopReason
       set_lastResponseWasError lastErrorMessage lastStopReason
       lastResponseWasError pendingRetryCleanup].
  unfold error_text.
  destruct (retryAttempt st + 1 >? MAX_RETRIES); reflexivity.
Qed.

(* ------------------------------------------------------------------ *)
(** ** Texts that the host-covered pattern matches *)
(* ------------------------------------------------------------------ *)

Lemma search_here (r : regex) (prev : option N) (s : jsstring) :
  rmatch r prev s accept = true -> search r prev s = true.
Proof.
  intros H. destruct s; cbn [search]; rewrite H; reflexivity.
Qed.

Lemma search_skip (r : regex) (p s : jsstring) :
  forall prev, search r (last_or prev p) s = true ->
               search r prev (p ++ s) = true.
Proof.
  induction p as [|x p IH]; intros prev H; cbn [app last_or] in *.
  - exact H.
  - cbn [search]. rewrite (IH (Some x) H). apply orb_true_r.
Qed.

Lemma test_inside (r : regex) (p s : jsstring) :
  rmatch r (last_or None p) s accept = true -> test r (p ++ s) = true.
Proof.
  intros H. unfold test. apply search_skip. now apply search_here.
Qed.

(** Whatever surrounds them, these three substrings make the host-covered
    pattern match. *)
Lemma builtin_matches_examples (p q : jsstring) :
  test BUILTIN_RETRY_PATTERNS (p ++ str "rate limit" ++ q) = true /\
  test BUILTIN_RETRY_PATTERNS (p ++ str "503" ++ q) = true /\
  test BUILTIN_RETRY_PATTERNS (p ++ str "connection refused" ++ q) = true.
Proof.
  repeat split; apply test_inside; generalize (last_or None p); intros prev;
    vm_compute; reflexivity.
Qed.

(* ------------------------------------------------------------------ *)
(** ** Claims about [agent_end] *)
(* ------------------------------------------------------------------ *)

(** C1.  When the last assistant message ended in error or abort and its
    error text matches the host-covered pattern, [agent_end] returns at
    once: no call is made (no log record, no timer, no trigger message) and
    the counter and the stored texts keep their values, whether or not the
    text also matches the auto-retryable pattern. *)
Theorem deferred_wins_over_retryable
    (messages : list Msg.t) (ctx : Host.t) (st : State) (m : Msg.t) :
  last_assistant messages = Some m ->
  is_failure (Msg.stopReason m) = true ->
  test BUILTIN_RETRY_PATTERNS (error_text m) = true ->
  let r := agent_end messages ctx st in
  result r = Returned /\
  calls r = [] /\
  calls (agent_end_run messages ctx st) = [] /\
  retryAttempt (state_of r) = retryAttempt st /\
  lastErrorMessage (state_of r) = lastErrorMessage st /\
  lastStopReason (state_of r) = lastStopReason st /\
  pendingRetryCleanup (state_of r) = pendingRetryCleanup st.
Proof.
  intros Hlast Hf Hpat r.
  assert (Hd : deferred m = true).
  { unfold deferred. now rewrite Hf, Hpat. }
  assert (E : agent_end messages ctx st
              = (Returned, set_lastResponseWasError true st, [])).
  { now apply agent_end_deferred with (m := m). }
  unfold agent_end_run, bind. subst r. rewrite E.
  repeat split; reflexivity.
Qed.

Lemma deferred_wins_over_retryable_witness :
  let m := Examples.assistant "error" "stream aborted: 503 rate limit" in
  test RETRYABLE_PATTERNS (error_text m) = true /\
  let r := agent_end Examples.aborted_and_covered Examples.ctx
             (set_retryAttempt 2 initial) in
  result r = Returned /\
  calls r = [] /\
  calls (agent_end_run Examples.aborted_and_covered Examples.ctx
           (set_retryAttempt 2 initial)) = [] /\
  retryAttempt (state_of r) = 2 /\
  lastErrorMessage (state_of r) = [] /\
  lastStopReason (state_of r) = [] /\
  pendingRetryCleanup (state_of r) = false.
Proof.
  split; [vm_compute; reflexivity|].
  apply (deferred_wins_over_retryable Examples.aborted_and_covered
           Examples.ctx (set_retryAttempt 2 initial)
           (Examples.assistant "error" "stream aborted: 503 rate limit"));
    vm_compute; reflexivity.
Defined.

(** C2.  With the counter at [MAX_RETRIES], one more auto-retryable failure
    ends the episode: the handler returns without suspending, so no trigger
    message is sent; the only log record is one [retry_exhausted] record
    with [attempt = 3]; an error notification carries the error text; and
    the counter is 0 and both stored texts are empty afterwards. *)
Theorem fourth_failure_exhausts
    (messages : list Msg.t) (ctx : Host.t) (st : State) (m : Msg.t) :
  last_assistant messages = Some m ->
  auto_retryable m = true ->
  retryAttempt st = MAX_RETRIES ->
  let r := agent_end_run messages ctx st in
  let e := entry_for ctx retry_exhausted (Some (Msg.stopReason m))
             (Some (error_text m)) 3 MAX_RETRIES None in
  result (agent_end messages ctx st) = Returned /\
  calls r = logged e ++ [Notify (exhausted_text (error_text m)) error;
                         SetStatus status_key None] /\
  filter is_send (calls r) = [] /\
  filter is_any_log (calls r) = [LogRetryEvent e] /\
  Entry.attempt e = 3 /\
  retryAttempt (state_of r) = 0 /\
  lastErrorMessage (state_of r) = [] /\
  lastStopReason (state_of r) = [] /\
  pendingRetryCleanup (state_of r) = pendingRetryCleanup st.
Proof.
  intros Hlast Ha Hn r e. subst r e.
  unfold agent_end_run, bind.
  rewrite (agent_end_retryable messages ctx st m Hlast Ha).
  cbv zeta. rewrite Hn. change (MAX_RETRIES + 1 >? MAX_RETRIES) with true.
  cbv iota. change (MAX_RETRIES + 1 - 1) with 3.
  repeat split; reflexivity.
Qed.

(** Three failures of one episode from the initial closure, each followed
    by its backoff wait and trigger, and then the fourth. *)
Lemma fourth_failure_exhausts_witness :
  let run := agent_end_run Examples.upstream_abort Examples.ctx in
  let st3 := state_of (run (state_of (run (state_of (run initial))))) in
  let m := Examples.assistant "aborted" "upstream aborted connection" in
  let e := entry_for Examples.ctx retry_exhausted (Some (str "aborted"))
             (Some (str "upstream aborted connection")) 3 3 None in
  retryAttempt st3 = 3 /\
  result (agent_end Examples.upstream_abort Examples.ctx st3) = Returned /\
  calls (run st3)
    = logged e ++ [Notify (exhausted_text (error_text m)) error;
                   SetStatus status_key None] /\
  filter is_send (calls (run st3)) = [] /\
  filter is_any_log (calls (run st3)) = [LogRetryEvent e] /\
  Entry.attempt e = 3 /\
  retryAttempt (state_of (run st3)) = 0 /\
  lastErrorMessage (state_of (run st3)) = [] /\
  lastStopReason (state_of (run st3)) = [] /\
  pendingRetryCleanup (state_of (run st3)) = true.
Proof.
  intros run st3 m e.
  split; [vm_compute; reflexivity|].
  apply (fourth_failure_exhausts Examples.upstream_abort Examples.ctx st3 m);
    vm_compute; reflexivity.
Defined.

(** C3.  When the last assistant message was aborted and its error text
    has a user-cancellation phrase, [agent_end] returns with no call made
    (no log record, no timer, no trigger message) and the counter
    unchanged; [lastResponseWasError] is true, so the [/retry] command of an
    idle agent then logs a manual retry and sends the trigger. *)
Theorem user_abort_not_retried
    (messages : list Msg.t) (ctx ctx' : Host.t) (st : State) (m : Msg.t) :
  last_assistant messages = Some m ->
  Msg.stopReason m = str "aborted" ->
  test USER_ABORT_PATTERNS (error_text m) = true ->
  Host.isIdle ctx' = true ->
  let r := agent_end messages ctx st in
  result r = Returned /\
  calls r = [] /\
  calls (agent_end_run messages ctx st) = [] /\
  retryAttempt (state_of r) = retryAttempt st /\
  lastResponseWasError (state_of r) = true /\
  calls (retry_command ctx' (state_of r))
    = IsIdle :: logged (entry_for ctx' manual_retry None None 1 1 None)
      ++ [trigger_call].
Proof.
  intros Hlast Hsr Hpat Hidle r.
  assert (Hab : user_abort m = true).
  { unfold user_abort. rewrite Hsr, Hpat. reflexivity. }
  assert (E : agent_end messages ctx st
              = (Returned, set_lastResponseWasError true st, [])).
  { now apply agent_end_user_abort with (m := m). }
  unfold agent_end_run, bind. subst r. rewrite E.
  repeat split; try reflexivity.
  unfold retry_command. run. rewrite Hidle. reflexivity.
Qed.

Lemma user_abort_not_retried_witness :
  let r := agent_end Examples.cancelled Examples.ctx
             (set_retryAttempt 1 initial) in
  result r = Returned /\
  calls r = [] /\
  calls (agent_end_run Examples.cancelled Examples.ctx
           (set_retryAttempt 1 initial)) = [] /\
  retryAttempt (state_of r) = 1 /\
  lastResponseWasError (state_of r) = true /\
  calls (retry_command Examples.ctx (state_of r))
    = IsIdle :: logged (entry_for Examples.ctx manual_retry None None 1 1 None)
      ++ [trigger_call].
Proof.
  apply (user_abort_not_retried Examples.cancelled Examples.ctx Examples.ctx
           (set_retryAttempt 1 initial)
           (Examples.assistant "aborted" "Request was aborted."));
    vm_compute; reflexivity.
Defined.

(** C7.  For the attempt number [N] from 1 to [MAX_RETRIES], reached by an
    auto-retryable failure with the counter at [N - 1], the handler
    suspends for [BASE_DELAY_MS * 2 ^ (N - 1)] milliseconds, which is 2000,
    4000 and 8000 for attempts 1, 2 and 3, and the [retry] record it logs
    has that same value as [delayMs] and [N] as [attempt]. *)
Theorem backoff_doubles
    (messages : list Msg.t) (ctx : Host.t) (st : State) (m : Msg.t) (N : Z) :
  last_assistant messages = Some m ->
  auto_retryable m = true ->
  1 <= N <= MAX_RETRIES ->
  retryAttempt st = N - 1 ->
  let r := agent_end messages ctx st in
  let delay := BASE_DELAY_MS * 2 ^ (N - 1) in
  let e := entry_for ctx retry (Some (Msg.stopReason m))
             (Some (error_text m)) N MAX_RETRIES (Some delay) in
  result r = Awaiting delay /\
  calls r = logged e
            ++ [SetStatus status_key
                  (Some (status_text (error_text m) N delay));
                SetTimeout delay] /\
  Entry.delayMs e = Some delay /\
  Entry.attempt e = N /\
  (N = 1 -> delay = 2000) /\
  (N = 2 -> delay = 4000) /\
  (N = 3 -> delay = 8000) /\
  (delay = 2000 \/ delay = 4000 \/ delay = 8000).
Proof.
  intros Hlast Ha HN Hn r delay e. subst r delay e.
  rewrite (agent_end_retryable messages ctx st m Hlast Ha).
  cbv zeta. rewrite Hn. replace (N - 1 + 1) with N by lia.
  unfold MAX_RETRIES in *.
  destruct (Z.gtb_spec N 3) as [Hgt|_]; [lia|].
  unfold backoff.
  repeat split; try reflexivity; try (intros ->; reflexivity).
  assert (N = 1 \/ N = 2 \/ N = 3) as [ -> | [ -> | -> ] ] by lia; cbn; auto.
Qed.

Lemma backoff_doubles_witness :
  let st1 := state_of (agent_end_run Examples.upstream_abort Examples.ctx
                         initial) in
  let r := agent_end Examples.upstream_abort Examples.ctx st1 in
  let e := entry_for Examples.ctx retry (Some (str "aborted"))
             (Some (str "upstream aborted connection")) 2 3 (Some 4000) in
  result r = Awaiting 4000 /\
  calls r = logged e
            ++ [SetStatus status_key
                  (Some (status_text (str "upstream aborted connection")
                           2 4000));
                SetTimeout 4000].
Proof.
  intros st1 r e.
  destruct (backoff_doubles Examples.upstream_abort Examples.ctx st1
              (Examples.assistant "aborted" "upstream aborted connection") 2)
    as (H1 & H2 & _); try (vm_compute; reflexivity).
  - vm_compute. split; discriminate.
  - split; [exact H1 | exact H2].
Defined.

(* ------------------------------------------------------------------ *)
(** ** Claims about [turn_end] *)
(* ------------------------------------------------------------------ *)

Lemma turn_end_cases (msg : Msg.t) (ctx : Host.t) (st : State) :
  turn_end msg ctx st =
    if completed msg then
      if retryAttempt st >? 0 then
        (tt,
         reset_episode (set_lastResponseWasError false st),
         logged (entry_for ctx retry_succeeded (Some (lastStopReason st))
                   (Some (lastErrorMessage st)) (retryAttempt st)
                   MAX_RETRIES None)
         ++ [Notify (succeeded_text (retryAttempt st)) info;
             SetStatus status_key None])
      else (tt, set_lastResponseWasError false st, [])
    else (tt, st, []).
Proof.
  unfold turn_end, completed.
  destruct (is_role msg "assistant" && _ && _)%bool; [|reflexivity].
  run. cbn [retryAttempt set_lastResponseWasError].
  destruct (retryAttempt st >? 0); reflexivity.
Qed.

Lemma jsstring_eqb_neq (a b : jsstring) : a <> b -> jsstring_eqb a b = false.
Proof.
  intros H. destruct (jsstring_eqb a b) eqn:E; [|reflexivity].
  apply jsstring_eqb_eq in E. contradiction.
Qed.

Lemma str_cons (a : ascii) (s : string) :
  str (String a s) = N_of_ascii a :: str s.
Proof. reflexivity. Qed.

Ltac next_digit :=
  rewrite str_cons; cbn [digits_value];
  match goal with
  | |- context [digit_value (N_of_ascii ?a)] =>
      let v := eval vm_compute in (digit_value (N_of_ascii a)) in
      change (digit_value (N_of_ascii a)) with v
  end; cbv iota.

Lemma digits_value_acc (d : Decimal.uint) :
  forall acc,
    digits_value (Z.pos acc) (str (DecimalString.NilEmpty.string_of_uint d))
    = Some (Z.pos (Pos.of_uint_acc d acc)).
Proof.
  induction d as [|d IH|d IH|d IH|d IH|d IH|d IH|d IH|d IH|d IH|d IH];
    intros acc;
    cbn [DecimalString.NilEmpty.string_of_uint Pos.of_uint_acc];
    [reflexivity| next_digit; rewrite <- IH; f_equal; lia ..].
Qed.

Lemma digits_value_zero (d : Decimal.uint) :
  digits_value 0 (str (DecimalString.NilEmpty.string_of_uint d))
  = Some (Z.of_N (Pos.of_uint d)).
Proof.
  induction d as [|d IH|d IH|d IH|d IH|d IH|d IH|d IH|d IH|d IH|d IH];
    cbn [DecimalString.NilEmpty.string_of_uint Pos.of_uint];
    [reflexivity | next_digit; exact IH
     | next_digit; cbn [Z.of_N]; rewrite <- digits_value_acc; reflexivity ..].
Qed.

(** The digits printed for a positive number denote that number. *)
Lemma decimal_value_number (n : Z) :
  n > 0 -> decimal_value (number_to_string n) = Some n.
Proof.
  intros Hn. destruct n as [|p|p]; try lia.
  unfold decimal_value, number_to_string.
  now rewrite digits_value_zero, DecimalPos.Unsigned.of_to.
Qed.

(** C6.  When [turn_end] receives an assistant message whose stop reason is
    neither "error" nor "aborted", [lastResponseWasError] becomes false.  If
    the counter is positive, the handler logs one [retry_succeeded] record
    whose [attempt] is the counter, shows an info notification with that
    number, clears the status line and clears the episode; if the counter is
    not positive it makes no call and changes nothing else.  The text of
    the notification is "Retry succeeded on attempt ", then decimal digits
    that denote the counter, then a full stop: for the counters 1, 2 and 3
    it ends in "1.", "2." and "3.". *)
Theorem success_ends_episode (msg : Msg.t) (ctx : Host.t) (st : State) :
  Msg.role msg = str "assistant" ->
  Msg.stopReason msg <> str "error" ->
  Msg.stopReason msg <> str "aborted" ->
  let r := turn_end msg ctx st in
  let e := entry_for ctx retry_succeeded (Some (lastStopReason st))
             (Some (lastErrorMessage st)) (retryAttempt st) MAX_RETRIES None in
  lastResponseWasError (state_of r) = false /\
  (retryAttempt st > 0 ->
     calls r = logged e ++ [Notify (succeeded_text (retryAttempt st)) info;
                            SetStatus status_key None] /\
     Entry.attempt e = retryAttempt st /\
     retryAttempt (state_of r) = 0 /\
     lastErrorMessage (state_of r) = [] /\
     lastStopReason (state_of r) = [] /\
     pendingRetryCleanup (state_of r) = pendingRetryCleanup st) /\
  (retryAttempt st <= 0 ->
     calls r = [] /\ state_of r = set_lastResponseWasError false st) /\
  (retryAttempt st > 0 ->
     exists digits,
       decimal_value digits = Some (retryAttempt st) /\
       filter (fun c => negb (is_any_log c)) (calls r)
       = [DateNow; GetThinkingLevel; GetSessionId;
          Notify (str "Retry succeeded on attempt " ++ digits ++ str ".") info;
          SetStatus status_key None]) /\
  (retryAttempt st = 1 ->
     In (Notify (str "Retry succeeded on attempt 1.") info) (calls r)) /\
  (retryAttempt st = 2 ->
     In (Notify (str "Retry succeeded on attempt 2.") info) (calls r)) /\
  (retryAttempt st = 3 ->
     In (Notify (str "Retry succeeded on attempt 3.") info) (calls r)).
Proof.
  intros Hrole Herr Hab r e. subst r e.
  rewrite turn_end_cases.
  assert (Hc : completed msg = true).
  { unfold completed, is_role. rewrite Hrole, jsstring_eqb_refl.
    now rewrite !jsstring_eqb_neq. }
  rewrite Hc.
  destruct (Z.gtb_spec (retryAttempt st) 0) as [Hpos|Hnon].
  - split; [reflexivity|]. split; [repeat split; reflexivity|].
    split; [intros; lia|]. split.
    + intros _. exists (number_to_string (retryAttempt st)).
      split; [apply decimal_value_number; lia | reflexivity].
    + repeat split; intros ->; cbn [calls snd logged app];
        do 4 right; left; reflexivity.
  - split; [reflexivity|]. split; [intros; lia|].
    split; [intros; split; reflexivity|].
    split; [intros; lia|]. repeat split; intros; lia.
Qed.

(** The end-to-end scenario: one auto-retry, then a normal turn. *)
Lemma success_ends_episode_witness :
  let st1 := state_of (agent_end_run Examples.upstream_abort Examples.ctx
                         initial) in
  let r := turn_end (Examples.assistant "stop" "") Examples.ctx st1 in
  let e := entry_for Examples.ctx retry_succeeded (Some (str "aborted"))
             (Some (str "upstream aborted connection")) 1 3 None in
  lastResponseWasError (state_of r) = false /\
  calls r = logged e ++ [Notify (str "Retry succeeded on attempt 1.") info;
                         SetStatus status_key None] /\
  In (Notify (str "Retry succeeded on attempt 1.") info) (calls r) /\
  retryAttempt (state_of r) = 0 /\
  lastErrorMessage (state_of r) = [] /\
  lastStopReason (state_of r) = [].
Proof.
  intros st1 r e.
  assert (Hrole : Msg.role (Examples.assistant "stop" "") = str "assistant")
    by reflexivity.
  assert (Herr : Msg.stopReason (Examples.assistant "stop" "") <> str "error")
    by (vm_compute; discriminate).
  assert (Hab : Msg.stopReason (Examples.assistant "stop" "") <> str "aborted")
    by (vm_compute; discriminate).
  destruct (success_ends_episode (Examples.assistant "stop" "")
              Examples.ctx st1 Hrole Herr Hab)
    as (H1 & H2 & _ & _ & Hone & _).
  destruct H2 as (H3 & _ & H4 & H5 & H6 & _); [vm_compute; reflexivity|].
  split; [exact H1|]. split; [exact H3|].
  split; [apply Hone; vm_compute; reflexivity|].
  repeat split; assumption.
Defined.

(* ------------------------------------------------------------------ *)
(** ** Claims about the manual retry surfaces *)
(* ------------------------------------------------------------------ *)

Lemma retry_command_cases (ctx : Host.t) (st : State) :
  retry_command ctx st =
    if negb (Host.isIdle ctx) then
      (tt, st, [IsIdle; Notify busy_text warning])
    else if negb (lastResponseWasError st) then
      (tt, st, [IsIdle; Notify nothing_text warning])
    else
      (tt, set_pendingRetryCleanup true st, IsIdle :: manual_calls ctx).
Proof.
  unfold retry_command. run.
  destruct (Host.isIdle ctx); cbn [negb]; [|reflexivity].
  destruct (lastResponseWasError st); reflexivity.
Qed.

(** C8.  The [/retry] command of a busy agent shows one warning and
    neither logs nor sends anything; with an idle agent whose last turn
    succeeded it does the same with another warning text; only with an idle
    agent whose last turn failed does it log a [manual_retry] record and
    send the trigger. *)
Theorem retry_command_gate (ctx : Host.t) (st : State) :
  let r := retry_command ctx st in
  (Host.isIdle ctx = false ->
     calls r = [IsIdle; Notify busy_text warning] /\ state_of r = st) /\
  (Host.isIdle ctx = true -> lastResponseWasError st = false ->
     calls r = [IsIdle; Notify nothing_text warning] /\ state_of r = st) /\
  (Host.isIdle ctx = true -> lastResponseWasError st = true ->
     calls r = IsIdle :: logged (entry_for ctx manual_retry None None 1 1 None)
               ++ [trigger_call] /\
     state_of r = set_pendingRetryCleanup true st) /\
  (filter is_send (calls r) <> [] \/ filter is_any_log (calls r) <> [] ->
     Host.isIdle ctx = true /\ lastResponseWasError st = true) /\
  busy_text <> nothing_text.
Proof.
  intros r. subst r. rewrite retry_command_cases.
  destruct (Host.isIdle ctx), (lastResponseWasError st); cbn [negb];
    repeat split; intros; try discriminate; try reflexivity;
    try (cbn in *; intuition congruence).
Qed.

Lemma retry_command_gate_witness :
  (calls (retry_command Examples.busy
            (set_lastResponseWasError true initial))
     = [IsIdle; Notify busy_text warning]) /\
  (calls (retry_command Examples.ctx initial)
     = [IsIdle; Notify nothing_text warning]) /\
  (calls (retry_command Examples.ctx (set_lastResponseWasError true initial))
     = IsIdle :: manual_calls Examples.ctx).
Proof.
  split; [|split].
  - apply (retry_command_gate Examples.busy
             (set_lastResponseWasError true initial)). reflexivity.
  - apply (retry_command_gate Examples.ctx initial); reflexivity.
  - apply (retry_command_gate Examples.ctx
             (set_lastResponseWasError true initial)); reflexivity.
Defined.

Section EnterKey.

Variable matchesKey : jsstring -> jsstring -> bool.

Lemma onTerminalInput_cases (ctx : Host.t) (data : jsstring) (st : State) :
  onTerminalInput matchesKey ctx data st =
    if negb (matchesKey data (str "enter")) then (None, st, [])
    else if negb (lastResponseWasError st) then (None, st, [])
    else if negb (Host.isIdle ctx) then (None, st, [IsIdle])
    else if negb (jsstring_eqb (trim (Host.editorText ctx)) []) then
      (None, st, [IsIdle; GetEditorText])
    else
      (Some {| consume := true |},
       set_pendingRetryCleanup true st,
       IsIdle :: GetEditorText :: manual_calls ctx).
Proof.
  unfold onTerminalInput.
  destruct (matchesKey data (str "enter")); cbn [negb]; [|reflexivity].
  run.
  destruct (lastResponseWasError st); cbn [negb]; [|reflexivity].
  destruct (Host.isIdle ctx); cbn [negb]; [|reflexivity].
  destruct (jsstring_eqb (trim (Host.editorText ctx)) []); reflexivity.
Qed.

(** C5, as the code has it.  The interceptor checks, in this order: the
    key; whether the last turn failed; whether the agent is idle (the
    first call on the host); whether the trimmed editor text is empty
    (the second call).  It stops at the first check that fails,
    returning [undefined] with the closure unchanged.  It returns
    [consume: true] exactly when all four pass, and then it has logged a
    [manual_retry] record and sent the trigger. *)
Theorem enter_key_short_circuit
    (ctx : Host.t) (data : jsstring) (st : State) :
  let r := onTerminalInput matchesKey ctx data st in
  r = (if negb (matchesKey data (str "enter")) then (None, st, [])
       else if negb (lastResponseWasError st) then (None, st, [])
       else if negb (Host.isIdle ctx) then (None, st, [IsIdle])
       else if negb (jsstring_eqb (trim (Host.editorText ctx)) []) then
         (None, st, [IsIdle; GetEditorText])
       else
         (Some {| consume := true |},
          set_pendingRetryCleanup true st,
          IsIdle :: GetEditorText
          :: logged (entry_for ctx manual_retry None None 1 1 None)
          ++ [trigger_call])) /\
  (result r = Some {| consume := true |}
   <-> enter_gate matchesKey ctx data st = true) /\
  (result r = None <-> enter_gate matchesKey ctx data st = false) /\
  (enter_gate matchesKey ctx data st = false ->
     state_of r = st /\
     filter is_send (calls r) = [] /\ filter is_any_log (calls r) = []).
Proof.
  intros r. subst r. rewrite onTerminalInput_cases. unfold enter_gate.
  destruct (matchesKey data (str "enter")), (lastResponseWasError st),
    (Host.isIdle ctx), (jsstring_eqb (trim (Host.editorText ctx)) []);
    cbn [negb andb result fst];
    repeat split; intros; try reflexivity; try discriminate.
Qed.

(** C10.  Neither manual retry path touches the episode: the counter, the
    stored error text and stop reason and [lastResponseWasError] keep
    their values.  The closure is unchanged when the gate fails, and
    differs only in [pendingRetryCleanup], which is true, when it
    passes. *)
Theorem manual_retry_keeps_episode
    (ctx : Host.t) (data : jsstring) (st : State) :
  let a := state_of (retry_command ctx st) in
  let b := state_of (onTerminalInput matchesKey ctx data st) in
  (retryAttempt a = retryAttempt st /\
   lastErrorMessage a = lastErrorMessage st /\
   lastStopReason a = lastStopReason st /\
   lastResponseWasError a = lastResponseWasError st) /\
  (retryAttempt b = retryAttempt st /\
   lastErrorMessage b = lastErrorMessage st /\
   lastStopReason b = lastStopReason st /\
   lastResponseWasError b = lastResponseWasError st) /\
  a = (if (Host.isIdle ctx && lastResponseWasError st)%bool
       then set_pendingRetryCleanup true st else st) /\
  b = (if enter_gate matchesKey ctx data st
       then set_pendingRetryCleanup true st else st).
Proof.
  intros a b. subst a b.
  rewrite retry_command_cases, onTerminalInput_cases. unfold enter_gate.
  destruct (matchesKey data (str "enter")),
    (lastResponseWasError st) eqn:Hfailed,
    (Host.isIdle ctx), (jsstring_eqb (trim (Host.editorText ctx)) []);
    cbn [negb andb state_of fst snd set_pendingRetryCleanup retryAttempt
         lastErrorMessage lastStopReason lastResponseWasError];
    repeat split; try reflexivity; exact Hfailed.
Qed.

End EnterKey.

(** C5, as stated: the order of the specification is not the order of the
    code.  Enter is pressed with text in the editor after a successful turn:
    the code stops at [lastResponseWasError] without asking the host for
    the editor text, the order of the specification asks for it first. *)
Lemma enter_key_order_differs :
  calls (onTerminalInput Examples.matchesKey Examples.typing [13%N] initial)
    = [] /\
  calls (onTerminalInput_spec_order Examples.matchesKey Examples.typing
           [13%N] initial) = [GetEditorText] /\
  onTerminalInput Examples.matchesKey Examples.typing [13%N] initial
    <> onTerminalInput_spec_order Examples.matchesKey Examples.typing
         [13%N] initial.
Proof.
  repeat split; try (vm_compute; reflexivity). vm_compute. discriminate.
Qed.

Lemma enter_key_short_circuit_witness :
  let r := onTerminalInput Examples.matchesKey Examples.busy [13%N]
             (set_lastResponseWasError true initial) in
  state_of r = set_lastResponseWasError true initial /\
  filter is_send (calls r) = [] /\ filter is_any_log (calls r) = [].
Proof.
  apply (enter_key_short_circuit Examples.matchesKey Examples.busy [13%N]
           (set_lastResponseWasError true initial)).
  vm_compute. reflexivity.
Defined.

(* ------------------------------------------------------------------ *)
(** ** Claims about the context scrubber *)
(* ------------------------------------------------------------------ *)

Lemma context_cases (messages : list Msg.t) (st : State) :
  context messages st =
    if pendingRetryCleanup st
    then (Some (scrub messages), set_pendingRetryCleanup false st, [])
    else (None, st, []).
Proof.
  unfold context. run. destruct (pendingRetryCleanup st); reflexivity.
Qed.

Lemma scrub_length (messages : list Msg.t) :
  (List.length (scrub messages) + count_markers messages
   = List.length messages)%nat.
Proof.
  unfold scrub, count_markers.
  induction messages as [|m l IH]; cbn [filter]; [reflexivity|].
  destruct (is_marker m); cbn [negb List.length]; lia.
Qed.

Lemma scrub_clean (l : list Msg.t) :
  count_markers l = 0%nat -> scrub l = l.
Proof.
  unfold scrub, count_markers.
  induction l as [|m l IH]; cbn [filter]; [reflexivity|].
  destruct (is_marker m); cbn [negb List.length]; [discriminate|].
  intros H. now rewrite IH.
Qed.

Lemma scrub_app (l1 l2 : list Msg.t) :
  scrub (l1 ++ l2) = scrub l1 ++ scrub l2.
Proof. apply filter_app. Qed.

(** C4, as stated: the pass after a trigger does not always remove exactly
    one message.  With two triggers in the history it removes both. *)
Lemma scrub_removes_both :
  let st1 := state_of (triggerRetry initial) in
  pendingRetryCleanup st1 = true /\
  result (context second_retry_history st1)
    = Some [ Examples.user;
             Examples.assistant "aborted" "upstream aborted connection";
             Examples.assistant "aborted" "upstream aborted connection" ] /\
  List.length second_retry_history = 5%nat /\
  ~ (exists cleaned,
       result (context second_retry_history st1) = Some cleaned /\
       S (List.length cleaned) = List.length second_retry_history).
Proof.
  repeat split; try (vm_compute; reflexivity).
  intros (cleaned & H & Hlen). vm_compute in H. injection H as <-.
  vm_compute in Hlen. discriminate.
Qed.

(** What the host runs inside [sendMessage] starts from a closure in
    which the flag is already set. *)
Lemma triggerRetry_during_run {A} (during : M A) (st : State) :
  triggerRetry_during during st =
    let '(a, st', tr) := during (set_pendingRetryCleanup true st) in
    (a, st', trigger_call :: tr).
Proof.
  unfold triggerRetry_during, bind, write, call.
  destruct (during (set_pendingRetryCleanup true st)) as [[a st'] tr].
  reflexivity.
Qed.

(** C4, as the code has it.  The trigger sets [pendingRetryCleanup] and
    then sends the marker: whatever handler the host runs inside
    [sendMessage] already finds the flag set, so even a [context] pass made
    during the send scrubs the list.  The next [context] pass returns the
    list without any message of the marker type, the other messages in
    their order, and clears the flag: it removes as many messages as the
    list has markers, so exactly one, wherever it stands, when the list has
    one.  A second pass with no trigger in between returns [undefined], so
    the host keeps its list, and the flag stays false. *)
Theorem scrub_is_flag_gated
    (st : State) (messages again pre post : list Msg.t) (mk : Msg.t) :
  let st1 := state_of (triggerRetry st) in
  let r1 := context messages st1 in
  let r2 := context again (state_of r1) in
  calls (triggerRetry st) = [trigger_call] /\
  pendingRetryCleanup st1 = true /\
  r1 = (Some (scrub messages), set_pendingRetryCleanup false st1, []) /\
  pendingRetryCleanup (state_of r1) = false /\
  (forall m, In m (scrub messages) <-> In m messages /\ is_marker m = false) /\
  (List.length (scrub messages) + count_markers messages
   = List.length messages)%nat /\
  (is_marker mk = true -> count_markers pre = 0%nat ->
   count_markers post = 0%nat ->
   assembled (pre ++ mk :: post) st1 = pre ++ post) /\
  r2 = (None, state_of r1, []) /\
  assembled again (state_of r1) = again /\
  (forall (A : Type) (during : M A),
     triggerRetry_during during st =
       let '(a, st', tr) := during (set_pendingRetryCleanup true st) in
       (a, st', trigger_call :: tr)) /\
  triggerRetry_during (ret tt) st = triggerRetry st /\
  triggerRetry_during (context messages) st
  = (Some (scrub messages), set_pendingRetryCleanup false st1,
     [trigger_call]).
Proof.
  intros st1 r1 r2. subst r2 r1. unfold assembled.
  rewrite !context_cases.
  assert (Hp : pendingRetryCleanup st1 = true) by reflexivity.
  rewrite Hp. cbn [state_of result fst snd].
  change (pendingRetryCleanup (set_pendingRetryCleanup false st1)) with false.
  cbv iota.
  split; [reflexivity|]. split; [reflexivity|]. split; [reflexivity|].
  split; [reflexivity|].
  split; [|split; [|split; [|split; [reflexivity|split; [reflexivity|]]]]].
  - intros m. unfold scrub. rewrite filter_In, negb_true_iff. reflexivity.
  - apply scrub_length.
  - intros Hmk Hpre Hpost.
    change (pre ++ mk :: post) with (pre ++ [mk] ++ post).
    rewrite !scrub_app, (scrub_clean pre Hpre), (scrub_clean post Hpost).
    unfold scrub at 1. cbn [filter]. now rewrite Hmk.
  - split; [intros A during; apply triggerRetry_during_run|].
    split; [reflexivity|].
    rewrite triggerRetry_during_run, context_cases. reflexivity.
Qed.

Lemma scrub_is_flag_gated_witness :
  let st1 := state_of (triggerRetry initial) in
  assembled ([Examples.user;
              Examples.assistant "aborted" "upstream aborted connection"]
             ++ Examples.marker :: [Examples.user]) st1
  = [Examples.user;
     Examples.assistant "aborted" "upstream aborted connection"]
    ++ [Examples.user].
Proof.
  apply (scrub_is_flag_gated initial [] []
           [Examples.user;
            Examples.assistant "aborted" "upstream aborted connection"]
           [Examples.user] Examples.marker);
    vm_compute; reflexivity.
Defined.

(* ------------------------------------------------------------------ *)
(** ** The counter in the event loop *)
(* ------------------------------------------------------------------ *)

(** What [agent_end] does to the counter, in every case. *)
Lemma agent_end_counter (messages : list Msg.t) (ctx : Host.t) (st : State) :
  let r := agent_end messages ctx st in
  (retryAttempt (state_of r) = retryAttempt st /\ result r = Returned) \/
  (retryAttempt st + 1 <= MAX_RETRIES /\
   retryAttempt (state_of r) = retryAttempt st + 1 /\
   result r = Awaiting (backoff (retryAttempt st + 1))) \/
  (retryAttempt st + 1 > MAX_RETRIES /\
   retryAttempt (state_of r) = 0 /\ result r = Returned).
Proof.
  intros r. subst r.
  destruct (last_assistant messages) as [m|] eqn:Hlast.
  2:{ rewrite (agent_end_none _ _ _ Hlast). left. split; reflexivity. }
  destruct (auto_retryable m) eqn:Ha.
  - rewrite (agent_end_retryable _ _ _ _ Hlast Ha). cbv zeta.
    destruct (Z.gtb_spec (retryAttempt st + 1) MAX_RETRIES) as [Hgt|Hle].
    + right. right. repeat split. lia.
    + right. left. repeat split. exact Hle.
  - left.
    destruct (is_failure (Msg.stopReason m)) eqn:Hf.
    2:{ rewrite (agent_end_not_failure _ _ _ _ Hlast Hf). split; reflexivity. }
    destruct (user_abort m) eqn:Hab.
    { rewrite (agent_end_user_abort _ _ _ _ Hlast Hab). split; reflexivity. }
    destruct (test RETRYABLE_PATTERNS (error_text m)) eqn:Hr.
    2:{ rewrite (agent_end_unmatched _ _ _ _ Hlast Hf Hr). split; reflexivity. }
    assert (Hd : deferred m = true).
    { unfold auto_retryable in Ha. unfold deferred.
      rewrite Hf, Hab, Hr in *. cbn [andb negb] in *.
      rewrite andb_true_r in Ha. now apply negb_false_iff in Ha. }
    rewrite (agent_end_deferred _ _ _ _ Hlast Hd). split; reflexivity.
Qed.

Section EventLoop.

Variable matchesKey : jsstring -> jsstring -> bool.

Lemma deliver_in_range (ev : HostEvent) (s s' : Sys) :
  in_range (closure s) -> deliver matchesKey ev s = Some s' ->
  in_range (closure s').
Proof.
  unfold in_range. intros Hin Hd.
  destruct ev as [message ctx|messages ctx|messages|ctx|ctx data|];
    cbn [deliver] in Hd.
  - injection Hd as <-. cbn [closure]. rewrite turn_end_cases.
    destruct (completed message); [|exact Hin].
    destruct (retryAttempt (closure s) >? 0); [|exact Hin].
    cbn. unfold MAX_RETRIES. lia.
  - injection Hd as <-. cbn [closure].
    destruct (agent_end_counter messages ctx (closure s))
      as [[E _]|[(Hle & E & _)|(_ & E & _)]]; rewrite E;
      unfold MAX_RETRIES in *; lia.
  - injection Hd as <-. cbn [closure]. rewrite context_cases.
    destruct (pendingRetryCleanup (closure s)); exact Hin.
  - injection Hd as <-. cbn [closure]. rewrite retry_command_cases.
    destruct (Host.isIdle ctx), (lastResponseWasError (closure s)); exact Hin.
  - injection Hd as <-. cbn [closure]. rewrite onTerminalInput_cases.
    destruct (matchesKey data (str "enter")),
      (lastResponseWasError (closure s)), (Host.isIdle ctx),
      (jsstring_eqb (trim (Host.editorText ctx)) []); exact Hin.
  - destruct (suspended s); [discriminate|].
    injection Hd as <-. exact Hin.
Qed.

Lemma reachable_in_range (s : Sys) :
  reachable matchesKey s -> in_range (closure s).
Proof.
  induction 1 as [|s s' ev _ IH Hd].
  - unfold in_range, MAX_RETRIES. cbn. lia.
  - exact (deliver_in_range ev s s' IH Hd).
Qed.

(** C9.  In every configuration the event loop can reach, so whenever a
    handler has returned or is suspended, the counter is between 0 and
    [MAX_RETRIES].  A run of [agent_end] from there leaves the counter as
    it was, or raises it by one to at most [MAX_RETRIES] and suspends, or,
    when the increment gives [MAX_RETRIES + 1], returns with the counter
    back at 0. *)
Theorem attempt_counter_in_range
    (s : Sys) (messages : list Msg.t) (ctx : Host.t) :
  reachable matchesKey s ->
  let n := retryAttempt (closure s) in
  let r := agent_end messages ctx (closure s) in
  0 <= n <= MAX_RETRIES /\
  ((retryAttempt (state_of r) = n /\ result r = Returned) \/
   (n + 1 <= MAX_RETRIES /\ retryAttempt (state_of r) = n + 1 /\
    result r = Awaiting (backoff (n + 1))) \/
   (n + 1 = MAX_RETRIES + 1 /\ retryAttempt (state_of r) = 0 /\
    result r = Returned)).
Proof.
  intros Hr n r. subst n r.
  pose proof (reachable_in_range s Hr) as Hin. unfold in_range in Hin.
  split; [exact Hin|].
  destruct (agent_end_counter messages ctx (closure s))
    as [H|[H|(Hgt & H)]]; [now left | right; now left | right; right].
  split; [lia | exact H].
Qed.

End EventLoop.

(** Three failures of an episode, with the timer of each fired before the
    next, reach the counter 3; the fourth failure takes it back to 0. *)
Lemma attempt_counter_in_range_witness :
  let fail := AgentEnd Examples.upstream_abort Examples.ctx in
  exists s3,
    closure s3
      = mkState 3 (str "upstream aborted connection") (str "aborted")
          true true /\
    0 <= retryAttempt (closure s3) <= MAX_RETRIES /\
    retryAttempt (state_of (agent_end Examples.upstream_abort Examples.ctx
                              (closure s3))) = 0.
Proof.
  intros fail.
  assert (Hreach : reachable Examples.matchesKey
            (mkSys (mkState 3 (str "upstream aborted connection")
                      (str "aborted") true true) 0)).
  { eapply reachable_deliver with (ev := TimerFired).
    eapply reachable_deliver with (ev := fail).
    eapply reachable_deliver with (ev := TimerFired).
    eapply reachable_deliver with (ev := fail).
    eapply reachable_deliver with (ev := TimerFired).
    eapply reachable_deliver with (ev := fail).
    apply reachable_start.
    all: vm_compute; reflexivity. }
  exists (mkSys (mkState 3 (str "upstream aborted connection")
                   (str "aborted") true true) 0).
  split; [reflexivity|].
  destruct (attempt_counter_in_range Examples.matchesKey _
              Examples.upstream_abort Examples.ctx Hreach) as [Hin Hcases].
  split; [exact Hin|].
  vm_compute. reflexivity.
Defined.

(* ------------------------------------------------------------------ *)
(** ** Matching ignores the case of ASCII letters *)
(* ------------------------------------------------------------------ *)

Lemma canonicalize_idem (c : N) :
  canonicalize (canonicalize c) = canonicalize c.
Proof.
  unfold canonicalize.
  destruct (N.leb 97 c && N.leb c 122)%bool eqn:E; [|now rewrite E].
  destruct (N.leb 97 (c - 32) && N.leb (c - 32) 122)%bool eqn:E2;
    [|reflexivity].
  apply andb_true_iff in E, E2. rewrite !N.leb_le in *. lia.
Qed.

Ltac split_tests :=
  repeat match goal with
         | |- context [N.leb ?a ?b] => destruct (N.leb_spec a b); try lia
         | |- context [N.eqb ?a ?b] => destruct (N.eqb_spec a b); try lia
         end.

Lemma is_line_terminator_canon (c : N) :
  is_line_terminator (canonicalize c) = is_line_terminator c.
Proof.
  unfold canonicalize.
  destruct (N.leb 97 c && N.leb c 122)%bool eqn:E; [|reflexivity].
  apply andb_true_iff in E. rewrite !N.leb_le in E.
  unfold is_line_terminator. split_tests; reflexivity.
Qed.

Lemma is_word_char_canon (c : N) :
  is_word_char (canonicalize c) = is_word_char c.
Proof.
  unfold canonicalize.
  destruct (N.leb 97 c && N.leb c 122)%bool eqn:E; [|reflexivity].
  apply andb_true_iff in E. rewrite !N.leb_le in E.
  unfold is_word_char. split_tests; reflexivity.
Qed.

Lemma is_word_at_canon (c : option N) :
  is_word_at (option_map canonicalize c) = is_word_at c.
Proof. destruct c; [apply is_word_char_canon | reflexivity]. Qed.

Lemma rmatch_canon (r : regex) :
  forall prev s k k',
    (forall p t, k p t = k' (option_map canonicalize p) (map canonicalize t)) ->
    rmatch r prev s k
    = rmatch r (option_map canonicalize prev) (map canonicalize s) k'.
Proof.
  induction r as [c| | |r IH|r1 IH1 r2 IH2|r1 IH1 r2 IH2];
    intros prev s k k' Hk; cbn [rmatch].
  - destruct s as [|x s]; cbn [map]; [reflexivity|].
    now rewrite canonicalize_idem, (Hk (Some x) s).
  - destruct s as [|x s]; cbn [map]; [reflexivity|].
    now rewrite is_line_terminator_canon, (Hk (Some x) s).
  - rewrite (Hk prev s), is_word_at_canon.
    replace (hd_error (map canonicalize s))
      with (option_map canonicalize (hd_error s)) by (now destruct s).
    now rewrite is_word_at_canon.
  - now rewrite (IH prev s k k' Hk), (Hk prev s).
  - apply IH1. intros p t. now apply IH2.
  - now rewrite (IH1 prev s k k' Hk), (IH2 prev s k k' Hk).
Qed.

Lemma search_canon (r : regex) (s : jsstring) :
  forall prev,
    search r prev s
    = search r (option_map canonicalize prev) (map canonicalize s).
Proof.
  induction s as [|x s IH]; intros prev; cbn [search map].
  - now rewrite (rmatch_canon r prev [] accept accept).
  - rewrite (rmatch_canon r prev (x :: s) accept accept) by reflexivity.
    now rewrite (IH (Some x)).
Qed.

Lemma test_canon (r : regex) (s : jsstring) :
  test r (map canonicalize s) = test r s.
Proof. unfold test. now rewrite (search_canon r s None). Qed.

Lemma test_ci (r : regex) (s1 s2 : jsstring) :
  map canonicalize s1 = map canonicalize s2 -> test r s1 = test r s2.
Proof.
  intros H. now rewrite <- (test_canon r s1), <- (test_canon r s2), H.
Qed.

(** X1.  The three patterns are matched without regard to the case of
    ASCII letters: two failures with the same stop reason whose error texts
    differ only in case get the same verdict of each test of [agent_end]
    (user abort, covered by the host, auto-retryable). *)
Theorem classification_ignores_case (m1 m2 : Msg.t) :
  Msg.stopReason m1 = Msg.stopReason m2 ->
  map canonicalize (error_text m1) = map canonicalize (error_text m2) ->
  user_abort m1 = user_abort m2 /\
  deferred m1 = deferred m2 /\
  auto_retryable m1 = auto_retryable m2.
Proof.
  intros Hsr Htxt.
  unfold auto_retryable, deferred, user_abort.
  rewrite Hsr,
    (test_ci USER_ABORT_PATTERNS _ _ Htxt),
    (test_ci BUILTIN_RETRY_PATTERNS _ _ Htxt),
    (test_ci RETRYABLE_PATTERNS _ _ Htxt).
  repeat split; reflexivity.
Qed.

Lemma classification_ignores_case_witness :
  auto_retryable (Examples.assistant "error" "Stream ABORTED by Proxy")
  = auto_retryable (Examples.assistant "error" "stream aborted by proxy") /\
  auto_retryable (Examples.assistant "error" "stream aborted by proxy") = true.
Proof.
  split; [|vm_compute; reflexivity].
  apply (classification_ignores_case
           (Examples.assistant "error" "Stream ABORTED by Proxy")
           (Examples.assistant "error" "stream aborted by proxy"));
    vm_compute; reflexivity.
Defined.

(* ------------------------------------------------------------------ *)
(** ** What the literal patterns match *)
(* ------------------------------------------------------------------ *)

Lemma rmatch_lit_from (cs : list N) :
  forall c prev s k,
    rmatch (lit_from c cs) prev s k = true <->
    exists u t, s = u ++ t /\
                map canonicalize u = map canonicalize (c :: cs) /\
                k (last_or prev u) t = true.
Proof.
  induction cs as [|d ds IH]; intros c prev s k; cbn [lit_from rmatch].
  - destruct s as [|x s].
    + split; [discriminate|].
      intros (u & t & Hs & Hu & _). destruct u; [discriminate|discriminate].
    + rewrite andb_true_iff, N.eqb_eq. split.
      * intros [Hx Hk]. exists [x], s. cbn [app map last_or].
        split; [reflexivity|]. split; [now rewrite Hx | exact Hk].
      * intros (u & t & Hs & Hu & Hk).
        destruct u as [|y [|z u]]; try discriminate.
        cbn [app map last_or] in Hs, Hu, Hk.
        injection Hs as -> ->. injection Hu as Hu.
        split; assumption.
  - destruct s as [|x s].
    + split; [discriminate|].
      intros (u & t & Hs & Hu & _). destruct u; discriminate.
    + rewrite andb_true_iff, N.eqb_eq, IH. split.
      * intros [Hx (u & t & -> & Hu & Hk)].
        exists (x :: u), t. cbn [app map last_or].
        split; [reflexivity|]. split; [now rewrite Hx, Hu | exact Hk].
      * intros (u & t & Hs & Hu & Hk).
        destruct u as [|y u]; [discriminate|].
        cbn [app map last_or] in Hs, Hu, Hk.
        injection Hs as -> ->. injection Hu as Hy Hu.
        split; [exact Hy|]. exists u, t. repeat split; assumption.
Qed.

Lemma search_iff (r : regex) (s : jsstring) :
  forall prev,
    search r prev s = true <->
    exists p t, s = p ++ t /\ rmatch r (last_or prev p) t accept = true.
Proof.
  induction s as [|x s IH]; intros prev; cbn [search].
  - rewrite orb_false_r. split.
    + intros H. exists [], []. now split.
    + intros (p & t & Hs & H).
      symmetry in Hs. apply app_eq_nil in Hs as [-> ->]. exact H.
  - rewrite orb_true_iff, IH. split.
    + intros [H|(p & t & -> & H)].
      * exists [], (x :: s). now split.
      * exists (x :: p), t. now split.
    + intros (p & t & Hs & H). destruct p as [|y p].
      * cbn in Hs, H. subst t. now left.
      * cbn [app last_or] in Hs, H. injection Hs as -> ->.
        right. exists p, t. now split.
Qed.

Lemma test_lit_from (c : N) (cs : list N) (s : jsstring) :
  test (lit_from c cs) s = true <-> contains_ci (c :: cs) s.
Proof.
  unfold test, contains_ci. rewrite search_iff. split.
  - intros (p & t & -> & H). apply rmatch_lit_from in H.
    destruct H as (u & q & -> & Hu & _). now exists p, u, q.
  - intros (p & u & q & -> & Hu). exists p, (u ++ q). split; [reflexivity|].
    apply rmatch_lit_from. now exists u, q.
Qed.

Lemma test_alt (r1 r2 : regex) (s : jsstring) :
  test (RAlt r1 r2) s = (test r1 s || test r2 s)%bool.
Proof.
  unfold test. generalize (@None N).
  induction s as [|x s IH]; intros prev; cbn [search rmatch].
  - now rewrite !orb_false_r.
  - rewrite (IH (Some x)).
    destruct (rmatch r1 prev (x :: s) accept),
      (rmatch r2 prev (x :: s) accept), (search r1 (Some x) s); reflexivity.
Qed.

(** X2.  The user-cancellation test of [agent_end] holds exactly for the
    texts that contain "operation aborted" or "request was aborted", in
    any case of the letters and at any place. *)
Theorem user_abort_pattern_is_substring (s : jsstring) :
  test USER_ABORT_PATTERNS s = true <->
  contains_ci (str "operation aborted") s \/
  contains_ci (str "request was aborted") s.
Proof.
  unfold USER_ABORT_PATTERNS. rewrite test_alt, orb_true_iff.
  change (lit "operation aborted")
    with (lit_from 111 (tl (str "operation aborted"))).
  change (lit "request was aborted")
    with (lit_from 114 (tl (str "request was aborted"))).
  rewrite !test_lit_from. reflexivity.
Qed.

Lemma word_of_canon (x c : N) :
  canonicalize x = canonicalize c -> is_word_char c = true ->
  is_word_char x = true.
Proof.
  intros H Hc.
  now rewrite <- (is_word_char_canon x), H, is_word_char_canon.
Qed.

Lemma aborted_edges (u q : jsstring) (prev : option N) :
  map canonicalize u = map canonicalize (str "aborted") ->
  is_word_at (hd_error (u ++ q)) = true /\
  is_word_at (last_or prev u) = true.
Proof.
  intros Hu.
  change (str "aborted") with [97; 98; 111; 114; 116; 101; 100]%N in Hu.
  do 7 (destruct u as [|? u]; [discriminate|]).
  destruct u; [|discriminate].
  cbn [map] in Hu. injection Hu as H1 H2 H3 H4 H5 H6 H7.
  cbn [app hd_error last_or is_word_at].
  split; [exact (word_of_canon _ _ H1 eq_refl)
         | exact (word_of_canon _ _ H7 eq_refl)].
Qed.

(** X3.  The auto-retryable test of [agent_end] holds exactly for the
    texts that contain "aborted", in any case of the letters, as a whole
    word: the character before it and the character after it, if any, is
    no letter, digit or underscore. *)
Theorem retryable_pattern_is_whole_word (s : jsstring) :
  test RETRYABLE_PATTERNS s = true <-> contains_word_ci (str "aborted") s.
Proof.
  unfold test, contains_word_ci, RETRYABLE_PATTERNS.
  change (lit "aborted") with (lit_from 97 (tl (str "aborted"))).
  rewrite search_iff. split.
  - intros (p & t & -> & H). cbn [rmatch] in H.
    apply andb_true_iff in H as [Hb H].
    apply rmatch_lit_from in H. destruct H as (u & q & -> & Hu & H).
    apply andb_true_iff in H as [Ha _].
    destruct (aborted_edges u q (last_or None p) Hu) as [Hhd Hlast].
    rewrite Hhd in Hb. rewrite Hlast in Ha.
    exists p, u, q. repeat split; try assumption.
    + now destruct (is_word_at (last_or None p)).
    + now destruct (is_word_at (hd_error q)).
  - intros (p & u & q & -> & Hu & Hp & Hq).
    exists p, (u ++ q). split; [reflexivity|]. cbn [rmatch].
    destruct (aborted_edges u q (last_or None p) Hu) as [Hhd Hlast].
    rewrite Hp, Hhd. cbn [xorb andb].
    apply rmatch_lit_from. exists u, q.
    split; [reflexivity|]. split; [exact Hu|].
    now rewrite Hlast, Hq.
Qed.

(* ------------------------------------------------------------------ *)
(** ** All of [agent_end] *)
(* ------------------------------------------------------------------ *)

(** The closed form of [agent_end]. *)
Lemma agent_end_cases (messages : list Msg.t) (ctx : Host.t) (st : State) :
  agent_end messages ctx st =
    match last_assistant messages with
    | None => (Returned, st, [])
    | Some m =>
        if auto_retryable m then
          let n := retryAttempt st + 1 in
          if n >? MAX_RETRIES then
            (Returned,
             reset_episode (set_lastResponseWasError true st),
             logged (entry_for ctx retry_exhausted (Some (Msg.stopReason m))
                       (Some (error_text m)) (n - 1) MAX_RETRIES None)
             ++ [Notify (exhausted_text (error_text m)) error;
                 SetStatus status_key None])
          else
            (Awaiting (backoff n),
             mkState n (error_text m) (Msg.stopReason m) true
               (pendingRetryCleanup st),
             logged (entry_for ctx retry (Some (Msg.stopReason m))
                       (Some (error_text m)) n MAX_RETRIES (Some (backoff n)))
             ++ [SetStatus status_key
                   (Some (status_text (error_text m) n (backoff n)));
                 SetTimeout (backoff n)])
        else
          (Returned,
           if is_failure (Msg.stopReason m)
           then set_lastResponseWasError true st else st,
           [])
    end.
Proof.
  destruct (last_assistant messages) as [m|] eqn:Hlast.
  2:{ now apply agent_end_none. }
  destruct (auto_retryable m) eqn:Ha.
  { now rewrite (agent_end_retryable _ _ _ _ Hlast Ha). }
  destruct (is_failure (Msg.stopReason m)) eqn:Hf.
  2:{ now apply agent_end_not_failure with (m := m). }
  destruct (user_abort m) eqn:Hab.
  { now apply agent_end_user_abort with (m := m). }
  destruct (test RETRYABLE_PATTERNS (error_text m)) eqn:Hr.
  2:{ now apply agent_end_unmatched with (m := m). }
  apply agent_end_deferred with (m := m); [exact Hlast|].
  unfold auto_retryable in Ha. unfold deferred.
  rewrite Hf, Hab, Hr in *. cbn [andb negb] in *.
  rewrite andb_true_r in Ha. now apply negb_false_iff in Ha.
Qed.

Lemma find_skip {A} (f : A -> bool) (l1 l2 : list A) :
  forallb (fun x => negb (f x)) l1 = true -> find f (l1 ++ l2) = find f l2.
Proof.
  induction l1 as [|x l1 IH]; cbn [forallb app find]; [reflexivity|].
  intros H. apply andb_true_iff in H as [Hx Hl].
  apply negb_true_iff in Hx. rewrite Hx. now apply IH.
Qed.

Lemma forallb_rev {A} (f : A -> bool) (l : list A) :
  forallb f (rev l) = forallb f l.
Proof.
  induction l as [|x l IH]; cbn [rev forallb]; [reflexivity|].
  rewrite forallb_app, IH. cbn [forallb]. rewrite andb_true_r.
  apply andb_comm.
Qed.

Lemma last_assistant_found (pre post : list Msg.t) (m : Msg.t) :
  is_role m "assistant" = true ->
  forallb (fun x => negb (is_role x "assistant")) post = true ->
  last_assistant (pre ++ m :: post) = Some m.
Proof.
  intros Hm Hpost. unfold last_assistant.
  rewrite rev_app_distr. cbn [rev]. rewrite <- app_assoc.
  rewrite find_skip by (now rewrite forallb_rev).
  cbn [app find]. now rewrite Hm.
Qed.

(** X4.  [agent_end] decides on the last assistant message of the run and
    on nothing else: the messages before it, and the messages of other
    roles after it, make no difference. *)
Theorem agent_end_reads_last_assistant
    (pre post : list Msg.t) (m : Msg.t) (ctx : Host.t) (st : State) :
  is_role m "assistant" = true ->
  forallb (fun x => negb (is_role x "assistant")) post = true ->
  last_assistant (pre ++ m :: post) = Some m /\
  agent_end (pre ++ m :: post) ctx st = agent_end [m] ctx st.
Proof.
  intros Hm Hpost.
  assert (H1 : last_assistant (pre ++ m :: post) = Some m)
    by now apply last_assistant_found.
  assert (H2 : last_assistant [m] = Some m)
    by now apply (last_assistant_found [] []).
  split; [exact H1|]. now rewrite !agent_end_cases, H1, H2.
Qed.

Lemma agent_end_reads_last_assistant_witness :
  let failed := Examples.assistant "aborted" "upstream aborted connection" in
  agent_end
    ([Examples.user; Examples.assistant "stop" ""; Examples.user]
     ++ failed :: [Examples.marker; Examples.user])
    Examples.ctx initial
  = agent_end [failed] Examples.ctx initial.
Proof.
  apply (agent_end_reads_last_assistant
           [Examples.user; Examples.assistant "stop" ""; Examples.user]
           [Examples.marker; Examples.user]
           (Examples.assistant "aborted" "upstream aborted connection")
           Examples.ctx initial);
    vm_compute; reflexivity.
Defined.

(** X5.  Unless the last assistant message is an auto-retryable failure,
    [agent_end] returns without any call and leaves the counter, the
    stored texts and [pendingRetryCleanup] alone; [lastResponseWasError]
    becomes true if that message ended in error or abort and keeps its
    value otherwise (a run without assistant message, or one that ended
    normally, changes nothing at all). *)
Theorem agent_end_acts_on_retryable_only
    (messages : list Msg.t) (ctx : Host.t) (st : State) :
  (forall m, last_assistant messages = Some m -> auto_retryable m = false) ->
  let r := agent_end messages ctx st in
  let failed :=
    match last_assistant messages with
    | Some m => is_failure (Msg.stopReason m)
    | None => false
    end in
  result r = Returned /\
  calls r = [] /\
  state_of r = (if failed then set_lastResponseWasError true st else st) /\
  retryAttempt (state_of r) = retryAttempt st /\
  lastErrorMessage (state_of r) = lastErrorMessage st /\
  lastStopReason (state_of r) = lastStopReason st /\
  pendingRetryCleanup (state_of r) = pendingRetryCleanup st.
Proof.
  intros H r failed. subst r failed. rewrite agent_end_cases.
  destruct (last_assistant messages) as [m|].
  - rewrite (H m eq_refl).
    destruct (is_failure (Msg.stopReason m)); repeat split; reflexivity.
  - repeat split; reflexivity.
Qed.

Lemma agent_end_acts_on_retryable_only_witness :
  let unknown := [Examples.user; Examples.assistant "error" "quota exceeded"] in
  let st := set_retryAttempt 2 initial in
  agent_end unknown Examples.ctx st
  = (Returned, set_lastResponseWasError true st, []) /\
  agent_end [Examples.user; Examples.assistant "stop" ""] Examples.ctx st
  = (Returned, st, []).
Proof.
  intros unknown st. split.
  - destruct (agent_end_acts_on_retryable_only unknown Examples.ctx st)
      as (H1 & H2 & H3 & _).
    + intros m Hm. vm_compute in Hm. injection Hm as <-.
      vm_compute. reflexivity.
    + destruct (agent_end unknown Examples.ctx st) as [[c s'] t].
      cbn in H1, H2, H3. now subst.
  - vm_compute. reflexivity.
Defined.

(** X6.  A run of [agent_end] arms the backoff timer, and after it sends
    the trigger message, exactly when the last assistant message is an
    auto-retryable failure and the counter is below [MAX_RETRIES]; in every
    other case it returns at once and sends nothing. *)
Theorem trigger_iff_retryable_below_ceiling
    (messages : list Msg.t) (ctx : Host.t) (st : State) :
  let r := agent_end messages ctx st in
  let sent := filter is_send (calls (agent_end_run messages ctx st)) in
  let go :=
    match last_assistant messages with
    | Some m => (auto_retryable m && (retryAttempt st <? MAX_RETRIES))%bool
    | None => false
    end in
  (go = true ->
     result r = Awaiting (backoff (retryAttempt st + 1)) /\
     sent = [trigger_call] /\
     pendingRetryCleanup (state_of (agent_end_run messages ctx st)) = true) /\
  (go = false -> result r = Returned /\ sent = []).
Proof.
  intros r sent go. subst r sent go.
  unfold agent_end_run, bind. rewrite agent_end_cases.
  destruct (last_assistant messages) as [m|];
    [|split; intros; [discriminate | split; reflexivity]].
  destruct (auto_retryable m); cbn [andb];
    [|split; intros; [discriminate | split; reflexivity]].
  cbv zeta. unfold MAX_RETRIES.
  destruct (Z.ltb_spec (retryAttempt st) 3) as [Hlt|Hge];
    destruct (Z.gtb_spec (retryAttempt st + 1) 3) as [Hgt|Hle]; try lia;
    split; intros; try discriminate; repeat split; reflexivity.
Qed.

Lemma trigger_iff_retryable_below_ceiling_witness :
  result (agent_end Examples.upstream_abort Examples.ctx
            (set_retryAttempt 2 initial)) = Awaiting 8000 /\
  filter is_send (calls (agent_end_run Examples.upstream_abort Examples.ctx
                           (set_retryAttempt 2 initial))) = [trigger_call] /\
  filter is_send (calls (agent_end_run Examples.upstream_abort Examples.ctx
                           (set_retryAttempt 3 initial))) = [].
Proof.
  destruct (trigger_iff_retryable_below_ceiling Examples.upstream_abort
              Examples.ctx (set_retryAttempt 2 initial)) as [Hgo _].
  destruct (trigger_iff_retryable_below_ceiling Examples.upstream_abort
              Examples.ctx (set_retryAttempt 3 initial)) as [_ Hstop].
  destruct Hgo as (H1 & H2 & _); [vm_compute; reflexivity|].
  destruct Hstop as (_ & H3); [vm_compute; reflexivity|].
  repeat split; assumption.
Defined.

(** X7.  After [agent_end] has seen a last assistant message that ended in
    error or abort, whatever the verdict on its text (user abort, covered
    by the host, unknown, retried or exhausted), [lastResponseWasError] is
    true, so the [/retry] command of an idle agent logs a manual retry and
    sends the trigger. *)
Theorem any_failure_allows_manual_retry
    (messages : list Msg.t) (ctx ctx' : Host.t) (st : State) (m : Msg.t) :
  last_assistant messages = Some m ->
  is_failure (Msg.stopReason m) = true ->
  Host.isIdle ctx' = true ->
  let st1 := state_of (agent_end messages ctx st) in
  let st2 := state_of (agent_end_run messages ctx st) in
  lastResponseWasError st1 = true /\
  lastResponseWasError st2 = true /\
  calls (retry_command ctx' st1) = IsIdle :: manual_calls ctx' /\
  calls (retry_command ctx' st2) = IsIdle :: manual_calls ctx'.
Proof.
  intros Hlast Hf Hidle st1 st2.
  assert (H1 : lastResponseWasError st1 = true).
  { subst st1. rewrite agent_end_cases, Hlast, Hf. cbv zeta.
    destruct (auto_retryable m); [|reflexivity].
    destruct (retryAttempt st + 1 >? MAX_RETRIES); reflexivity. }
  assert (H2 : lastResponseWasError st2 = true).
  { subst st2. unfold agent_end_run, bind.
    rewrite agent_end_cases, Hlast, Hf. cbv zeta.
    destruct (auto_retryable m); [|reflexivity].
    destruct (retryAttempt st + 1 >? MAX_RETRIES); reflexivity. }
  repeat split; try assumption;
    rewrite retry_command_cases, Hidle; cbn [negb];
    [rewrite H1 | rewrite H2]; reflexivity.
Qed.

Lemma any_failure_allows_manual_retry_witness :
  let st4 := state_of (agent_end_run Examples.upstream_abort Examples.ctx
                         (set_retryAttempt 3 initial)) in
  retryAttempt st4 = 0 /\
  calls (retry_command Examples.ctx st4) = IsIdle :: manual_calls Examples.ctx.
Proof.
  intros st4. split; [vm_compute; reflexivity|].
  apply (any_failure_allows_manual_retry Examples.upstream_abort
           Examples.ctx Examples.ctx (set_retryAttempt 3 initial)
           (Examples.assistant "aborted" "upstream aborted connection"));
    vm_compute; reflexivity.
Defined.

(** X8.  Up to its return or its [await], [agent_end] sends no message and
    leaves [pendingRetryCleanup] as it is: the trigger goes out only after
    the backoff wait.  It never clears [lastResponseWasError]. *)
Theorem agent_end_sends_nothing_before_wait
    (messages : list Msg.t) (ctx : Host.t) (st : State) :
  let r := agent_end messages ctx st in
  filter is_send (calls r) = [] /\
  pendingRetryCleanup (state_of r) = pendingRetryCleanup st /\
  (lastResponseWasError st = true ->
   lastResponseWasError (state_of r) = true).
Proof.
  intros r. subst r. rewrite agent_end_cases.
  destruct (last_assistant messages) as [m|]; [|repeat split; auto].
  destruct (auto_retryable m).
  - cbv zeta. destruct (retryAttempt st + 1 >? MAX_RETRIES);
      repeat split; auto.
  - destruct (is_failure (Msg.stopReason m)); repeat split; auto.
Qed.

Lemma agent_end_sends_nothing_before_wait_witness :
  lastResponseWasError
    (state_of (agent_end [Examples.user; Examples.assistant "stop" ""]
                 Examples.ctx (set_lastResponseWasError true initial)))
  = true.
Proof.
  apply (agent_end_sends_nothing_before_wait
           [Examples.user; Examples.assistant "stop" ""] Examples.ctx
           (set_lastResponseWasError true initial)).
  reflexivity.
Defined.

(** X9.  The user-cancellation phrases stop a retry only under the stop
    reason "aborted".  A message with stop reason "error" whose text has
    such a phrase is retried like any other text with the word "aborted"
    that the host does not cover. *)
Theorem cancel_phrase_under_error_is_retried
    (messages : list Msg.t) (ctx : Host.t) (st : State) (m : Msg.t) :
  last_assistant messages = Some m ->
  Msg.stopReason m = str "error" ->
  test USER_ABORT_PATTERNS (error_text m) = true ->
  test BUILTIN_RETRY_PATTERNS (error_text m) = false ->
  test RETRYABLE_PATTERNS (error_text m) = true ->
  retryAttempt st < MAX_RETRIES ->
  user_abort m = false /\
  result (agent_end messages ctx st)
  = Awaiting (backoff (retryAttempt st + 1)) /\
  retryAttempt (state_of (agent_end messages ctx st)) = retryAttempt st + 1.
Proof.
  intros Hlast Hsr Hu Hb Hr Hn.
  assert (Hab : user_abort m = false).
  { unfold user_abort. rewrite Hsr. reflexivity. }
  assert (Ha : auto_retryable m = true).
  { unfold auto_retryable. rewrite Hab, Hb, Hr, Hsr. reflexivity. }
  split; [exact Hab|].
  rewrite agent_end_cases, Hlast, Ha. cbv zeta.
  destruct (Z.gtb_spec (retryAttempt st + 1) MAX_RETRIES) as [Hgt|_];
    [lia | split; reflexivity].
Qed.

Lemma cancel_phrase_under_error_is_retried_witness :
  let m := Examples.assistant "error" "Request was aborted" in
  user_abort m = false /\
  result (agent_end [Examples.user; m] Examples.ctx initial)
  = Awaiting (backoff 1) /\
  retryAttempt (state_of (agent_end [Examples.user; m] Examples.ctx initial))
  = 1.
Proof.
  intros m.
  apply (cancel_phrase_under_error_is_retried [Examples.user; m]
           Examples.ctx initial m);
    try (vm_compute; reflexivity).
Defined.

(* ------------------------------------------------------------------ *)
(** ** More on [turn_end] and the manual surfaces *)
(* ------------------------------------------------------------------ *)

(** X10.  [turn_end] does nothing for a message that is not from the
    assistant or that ended in error or abort: recording a failure is left
    to [agent_end].  For every message it sends nothing, arms no timer,
    leaves [pendingRetryCleanup] alone and never sets
    [lastResponseWasError] to true. *)
Theorem turn_end_ignores_failures
    (msg : Msg.t) (ctx : Host.t) (st : State) :
  let r := turn_end msg ctx st in
  (is_role msg "assistant" = false \/ is_failure (Msg.stopReason msg) = true ->
   r = (tt, st, [])) /\
  filter is_send (calls r) = [] /\
  Forall (fun c => forall d, c <> SetTimeout d) (calls r) /\
  pendingRetryCleanup (state_of r) = pendingRetryCleanup st /\
  (lastResponseWasError (state_of r) = true ->
   lastResponseWasError st = true /\ r = (tt, st, [])).
Proof.
  intros r. subst r. rewrite turn_end_cases.
  assert (Hc : is_role msg "assistant" = false \/
               is_failure (Msg.stopReason msg) = true ->
               completed msg = false).
  { unfold completed, is_failure. intros [->|H]; [reflexivity|].
    apply orb_true_iff in H as [-> | ->]; cbn [negb andb];
      now rewrite ?andb_false_r. }
  split; [intros H; now rewrite (Hc H)|].
  destruct (completed msg).
  - destruct (retryAttempt st >? 0); repeat split;
      try reflexivity; try discriminate;
      repeat constructor; discriminate.
  - repeat split; try reflexivity; auto.
Qed.

Lemma turn_end_ignores_failures_witness :
  turn_end (Examples.assistant "error" "quota exceeded") Examples.ctx
    (set_retryAttempt 2 initial)
  = (tt, set_retryAttempt 2 initial, []).
Proof.
  destruct (turn_end_ignores_failures
              (Examples.assistant "error" "quota exceeded") Examples.ctx
              (set_retryAttempt 2 initial)) as [H _].
  apply H. right. vm_compute. reflexivity.
Defined.

Lemma trim_start_nil (s : jsstring) :
  trim_start s = [] <-> forallb is_trimmed s = true.
Proof.
  induction s as [|c s IH]; cbn [trim_start forallb]; [tauto|].
  destruct (is_trimmed c); cbn [andb]; [exact IH|].
  split; discriminate.
Qed.

Lemma trim_start_all (s : jsstring) :
  forallb is_trimmed (trim_start s) = true -> trim_start s = [].
Proof.
  induction s as [|c s IH]; cbn [trim_start]; [reflexivity|].
  destruct (is_trimmed c) eqn:E; [exact IH|].
  cbn [forallb]. rewrite E. discriminate.
Qed.

Lemma trim_nil (s : jsstring) :
  trim s = [] <-> forallb is_trimmed s = true.
Proof.
  unfold trim. split.
  - intros H. apply (f_equal (@rev N)) in H. rewrite rev_involutive in H.
    cbn [rev] in H. apply trim_start_nil in H. rewrite forallb_rev in H.
    apply trim_start_nil. now apply trim_start_all.
  - intros H. apply trim_start_nil in H. rewrite H. reflexivity.
Qed.

Section Surfaces.

Variable matchesKey : jsstring -> jsstring -> bool.

(** X11.  The interceptor takes an editor text for empty exactly when all
    of its characters are white space or line ends: with the Enter key, a
    failed last turn and an idle agent, the key is consumed and the retry
    started if and only if the editor text is blank in that sense. *)
Theorem blank_editor_counts_as_empty
    (ctx : Host.t) (data : jsstring) (st : State) :
  matchesKey data (str "enter") = true ->
  lastResponseWasError st = true ->
  Host.isIdle ctx = true ->
  let r := onTerminalInput matchesKey ctx data st in
  (forallb is_trimmed (Host.editorText ctx) = true ->
   result r = Some {| consume := true |} /\
   filter is_send (calls r) = [trigger_call]) /\
  (forallb is_trimmed (Host.editorText ctx) = false ->
   r = (None, st, [IsIdle; GetEditorText])).
Proof.
  intros Hkey Hfailed Hidle r. subst r.
  rewrite onTerminalInput_cases, Hkey, Hfailed, Hidle. cbn [negb].
  split; intros Hblank.
  - apply trim_nil in Hblank. rewrite Hblank. split; reflexivity.
  - destruct (jsstring_eqb (trim (Host.editorText ctx)) []) eqn:E;
      [|reflexivity].
    apply jsstring_eqb_eq, trim_nil in E. congruence.
Qed.

(** X12.  The two manual surfaces share one action.  When the key is
    Enter and the editor is blank, the interceptor leaves the closure
    exactly as the [/retry] command would and makes the same log and send
    calls; it consumes the key exactly when the command would retry.  The
    interceptor, unlike the command, never notifies. *)
Theorem enter_key_acts_like_command
    (ctx : Host.t) (data : jsstring) (st : State) :
  matchesKey data (str "enter") = true ->
  trim (Host.editorText ctx) = [] ->
  let k := onTerminalInput matchesKey ctx data st in
  let c := retry_command ctx st in
  let acts := fun x => (is_send x || is_any_log x)%bool in
  state_of k = state_of c /\
  filter acts (calls k) = filter acts (calls c) /\
  (result k = Some {| consume := true |} <->
   filter is_send (calls c) = [trigger_call]) /\
  Forall (fun x => forall t l, x <> Notify t l) (calls k).
Proof.
  intros Hkey Hblank k c acts. subst k c acts.
  rewrite onTerminalInput_cases, retry_command_cases, Hkey, Hblank.
  cbn [negb jsstring_eqb].
  destruct (lastResponseWasError st), (Host.isIdle ctx); cbn [negb];
    repeat split; try reflexivity; try discriminate;
    repeat constructor; discriminate.
Qed.

End Surfaces.

Lemma blank_editor_counts_as_empty_witness :
  let blank :=
    {| Host.model := None; Host.cwd := str "/work";
       Host.sessionId := str "s-1"; Host.isIdle := true;
       Host.editorText := [32; 9; 10; 160]%N;
       Host.thinkingLevel := str "off";
       Host.now := str "2025-01-01T00:00:00.000Z" |} in
  result (onTerminalInput Examples.matchesKey blank [13%N]
            (set_lastResponseWasError true initial))
  = Some {| consume := true |}.
Proof.
  intros blank.
  assert (Hkey : Examples.matchesKey [13%N] (str "enter") = true)
    by (vm_compute; reflexivity).
  destruct (blank_editor_counts_as_empty Examples.matchesKey blank [13%N]
              (set_lastResponseWasError true initial) Hkey eq_refl eq_refl)
    as [H _].
  destruct H as [H _]; [vm_compute; reflexivity | exact H].
Defined.

Lemma enter_key_acts_like_command_witness :
  state_of (onTerminalInput Examples.matchesKey Examples.ctx [13%N]
              (set_lastResponseWasError true initial))
  = state_of (retry_command Examples.ctx
                (set_lastResponseWasError true initial)).
Proof.
  apply (enter_key_acts_like_command Examples.matchesKey Examples.ctx
           [13%N] (set_lastResponseWasError true initial));
    vm_compute; reflexivity.
Defined.

(* ------------------------------------------------------------------ *)
(** ** Invariants of the event loop *)
(* ------------------------------------------------------------------ *)

Lemma auto_retryable_inv (m : Msg.t) :
  auto_retryable m = true ->
  is_failure (Msg.stopReason m) = true /\
  test BUILTIN_RETRY_PATTERNS (error_text m) = false /\
  test RETRYABLE_PATTERNS (error_text m) = true.
Proof.
  unfold auto_retryable. intros H.
  repeat (apply andb_true_iff in H; destruct H as [H ?]).
  repeat split; try assumption. now apply negb_true_iff.
Qed.

Lemma backoff_values (n : Z) :
  1 <= n <= MAX_RETRIES ->
  backoff n = 2000 \/ backoff n = 4000 \/ backoff n = 8000.
Proof.
  unfold MAX_RETRIES. intros H.
  assert (n = 1 \/ n = 2 \/ n = 3) as [ -> | [ -> | -> ] ] by lia;
    vm_compute; auto.
Qed.

Lemma episode_ok_flags (st : State) (failed pending : bool) :
  episode_ok st ->
  (lastResponseWasError st = true -> failed = true) ->
  episode_ok (mkState (retryAttempt st) (lastErrorMessage st)
                (lastStopReason st) failed pending).
Proof.
  unfold episode_ok. cbn [retryAttempt lastErrorMessage lastStopReason
                           lastResponseWasError].
  intros (Hr & H0 & Hpos) Hf. split; [exact Hr|]. split; [exact H0|].
  intros Hn. destruct (Hpos Hn) as (H1 & H2). split; [now apply Hf|exact H2].
Qed.

Lemma episode_ok_idle (failed pending : bool) :
  episode_ok (mkState 0 [] [] failed pending).
Proof.
  unfold episode_ok, MAX_RETRIES.
  cbn [retryAttempt lastErrorMessage lastStopReason lastResponseWasError].
  repeat split; lia.
Qed.

Section LoopInvariants.

Variable matchesKey : jsstring -> jsstring -> bool.

Lemma deliver_episode_ok (ev : HostEvent) (s s' : Sys) :
  episode_ok (closure s) -> deliver matchesKey ev s = Some s' ->
  episode_ok (closure s').
Proof.
  intros Hok Hd. pose proof Hok as (Hr & _).
  destruct ev as [message ctx|messages ctx|messages|ctx|ctx data|];
    cbn [deliver] in Hd.
  - injection Hd as <-. cbn [closure]. rewrite turn_end_cases.
    destruct (completed message); [|exact Hok].
    destruct (Z.gtb_spec (retryAttempt (closure s)) 0) as [Hpos|Hnon];
      cbn [state_of fst snd]; [apply episode_ok_idle|].
    destruct Hok as (_ & H0 & _). unfold episode_ok.
    cbn [set_lastResponseWasError retryAttempt lastErrorMessage
         lastStopReason lastResponseWasError].
    split; [exact Hr|]. split; [exact H0|]. intros; lia.
  - injection Hd as <-. cbn [closure]. rewrite agent_end_cases.
    destruct (last_assistant messages) as [m|]; [|exact Hok].
    destruct (auto_retryable m) eqn:Ha.
    + cbv zeta.
      destruct (Z.gtb_spec (retryAttempt (closure s) + 1) MAX_RETRIES)
        as [Hgt|Hle]; cbn [state_of fst snd]; [apply episode_ok_idle|].
      destruct (auto_retryable_inv m Ha) as (Hf & Hb & Hret).
      unfold episode_ok.
      cbn [retryAttempt lastErrorMessage lastStopReason
           lastResponseWasError].
      split; [lia|]. split; [intros; lia|]. intros _. now repeat split.
    + cbn [state_of fst snd].
      destruct (is_failure (Msg.stopReason m)); [|exact Hok].
      now apply (episode_ok_flags _ true _ Hok).
  - injection Hd as <-. cbn [closure]. rewrite context_cases.
    destruct (pendingRetryCleanup (closure s)); exact Hok.
  - injection Hd as <-. cbn [closure]. rewrite retry_command_cases.
    destruct (Host.isIdle ctx), (lastResponseWasError (closure s));
      exact Hok.
  - injection Hd as <-. cbn [closure]. rewrite onTerminalInput_cases.
    destruct (matchesKey data (str "enter")),
      (lastResponseWasError (closure s)), (Host.isIdle ctx),
      (jsstring_eqb (trim (Host.editorText ctx)) []); exact Hok.
  - destruct (suspended s); [discriminate|].
    injection Hd as <-. exact Hok.
Qed.

(** X13.  In every configuration the event loop can reach the stored
    episode agrees with the counter.  With the counter at 0 both stored
    texts are empty.  With the counter above 0, [lastResponseWasError] is
    true, the stored stop reason is "error" or "aborted", and the stored
    error text matches the auto-retryable pattern and not the pattern the
    host covers. *)
Theorem episode_matches_counter (s : Sys) :
  reachable matchesKey s ->
  let st := closure s in
  (retryAttempt st = 0 ->
     lastErrorMessage st = [] /\ lastStopReason st = []) /\
  (retryAttempt st > 0 ->
     lastResponseWasError st = true /\
     is_failure (lastStopReason st) = true /\
     test RETRYABLE_PATTERNS (lastErrorMessage st) = true /\
     test BUILTIN_RETRY_PATTERNS (lastErrorMessage st) = false).
Proof.
  intros Hr st. subst st.
  assert (H : episode_ok (closure s)).
  { induction Hr as [|s s' ev _ IH Hd].
    - apply episode_ok_idle.
    - exact (deliver_episode_ok ev s s' IH Hd). }
  destruct H as (_ & H0 & Hpos). split; assumption.
Qed.

End LoopInvariants.

Lemma episode_matches_counter_witness :
  let s1 := mkSys (mkState 1 (str "upstream aborted connection")
                     (str "aborted") true false) 1 in
  lastResponseWasError (closure s1) = true /\
  is_failure (lastStopReason (closure s1)) = true /\
  test RETRYABLE_PATTERNS (lastErrorMessage (closure s1)) = true /\
  test BUILTIN_RETRY_PATTERNS (lastErrorMessage (closure s1)) = false.
Proof.
  intros s1.
  assert (Hreach : reachable Examples.matchesKey s1).
  { eapply reachable_deliver
      with (ev := AgentEnd Examples.upstream_abort Examples.ctx).
    - apply reachable_start.
    - vm_compute. reflexivity. }
  destruct (episode_matches_counter Examples.matchesKey s1 Hreach) as [_ H].
  apply H. vm_compute. reflexivity.
Defined.

Lemma manual_calls_ok (ctx : Host.t) : Forall call_ok (manual_calls ctx).
Proof.
  unfold manual_calls, logged. cbn [app].
  repeat constructor.
Qed.

Section Traces.

Variable matchesKey : jsstring -> jsstring -> bool.

Lemma deliver_calls_ok (ev : HostEvent) (s : Sys) :
  in_range (closure s) -> Forall call_ok (deliver_calls matchesKey ev s).
Proof.
  unfold in_range. intros Hr.
  destruct ev as [message ctx|messages ctx|messages|ctx|ctx data|];
    cbn [deliver_calls].
  - rewrite turn_end_cases.
    destruct (completed message); [|constructor].
    destruct (Z.gtb_spec (retryAttempt (closure s)) 0) as [Hpos|_];
      [|constructor].
    cbn [calls snd logged app]. repeat constructor; cbn; lia.
  - rewrite agent_end_cases.
    destruct (last_assistant messages) as [m|]; [|constructor].
    destruct (auto_retryable m); [|constructor].
    cbv zeta.
    destruct (Z.gtb_spec (retryAttempt (closure s) + 1) MAX_RETRIES)
      as [Hgt|Hle]; cbn [calls snd logged app].
    + repeat constructor; cbn; unfold MAX_RETRIES in *; lia.
    + repeat apply Forall_cons; try apply Forall_nil;
        try exact I; try reflexivity.
      * cbn. repeat split; try reflexivity; lia.
      * apply backoff_values. lia.
  - rewrite context_cases.
    destruct (pendingRetryCleanup (closure s)); constructor.
  - rewrite retry_command_cases.
    destruct (Host.isIdle ctx), (lastResponseWasError (closure s));
      cbn [negb calls snd]; repeat constructor.
  - rewrite onTerminalInput_cases.
    destruct (matchesKey data (str "enter")),
      (lastResponseWasError (closure s)), (Host.isIdle ctx),
      (jsstring_eqb (trim (Host.editorText ctx)) []);
      cbn [negb calls snd]; repeat constructor.
  - destruct (suspended s); repeat constructor.
Qed.

Lemma run_calls_ok (events : list HostEvent) :
  forall s s' tr,
    in_range (closure s) -> run matchesKey events s = Some (s', tr) ->
    Forall call_ok tr /\ in_range (closure s').
Proof.
  induction events as [|ev rest IH]; intros s s' tr Hr Hrun; cbn [run] in Hrun.
  - injection Hrun as <- <-. split; [constructor | exact Hr].
  - destruct (deliver matchesKey ev s) as [s1|] eqn:Hd; [|discriminate].
    destruct (run matchesKey rest s1) as [[s2 tr2]|] eqn:Hrest;
      [|discriminate].
    injection Hrun as <- <-.
    pose proof (deliver_in_range matchesKey ev s s1 Hr Hd) as Hr1.
    destruct (IH s1 s2 tr2 Hr1 Hrest) as [Htr Hr2].
    split; [|exact Hr2].
    apply Forall_app. split; [now apply deliver_calls_ok | exact Htr].
Qed.

(** X14.  Whatever events the host delivers from the start, in whatever
    order, every call the extension makes is well formed.  A [retry]
    record has an attempt from 1 to 3, ceiling 3 and the delay
    [2000 * 2 ^ (attempt - 1)]; a [retry_exhausted] record has attempt 3; a
    [retry_succeeded] record has an attempt from 1 to 3; a [manual_retry]
    record has attempt 1, ceiling 1 and neither stop reason nor error
    text.  Every timer is armed for 2000, 4000 or 8000 ms.  Every message
    sent is the hidden trigger, with [triggerTurn].  Every status update is
    on the key of the extension. *)
Theorem every_call_is_well_formed
    (events : list HostEvent) (s' : Sys) (tr : list Call) :
  run matchesKey events (mkSys initial 0) = Some (s', tr) ->
  Forall call_ok tr.
Proof.
  intros Hrun.
  apply (run_calls_ok events (mkSys initial 0) s' tr); [|exact Hrun].
  unfold in_range, MAX_RETRIES. cbn. lia.
Qed.

End Traces.

Lemma every_call_is_well_formed_witness :
  let fail := AgentEnd Examples.upstream_abort Examples.ctx in
  let events :=
    [fail; TimerFired; ContextAssembly [Examples.user; Examples.marker];
     fail; RetryCommand Examples.ctx; TimerFired;
     TurnEnd (Examples.assistant "stop" "") Examples.ctx] in
  exists s' tr,
    run Examples.matchesKey events (mkSys initial 0) = Some (s', tr) /\
    List.length (filter is_send tr) = 3%nat /\
    Forall call_ok tr.
Proof.
  intros fail events.
  destruct (run Examples.matchesKey events (mkSys initial 0))
    as [[s' tr]|] eqn:Hrun; [|vm_compute in Hrun; discriminate].
  exists s', tr. split; [reflexivity|]. split.
  - vm_compute in Hrun. injection Hrun as <- <-. vm_compute. reflexivity.
  - exact (every_call_is_well_formed Examples.matchesKey events s' tr Hrun).
Defined.

(* ------------------------------------------------------------------ *)
(** ** Episodes, delays and triggers in sequence *)
(* ------------------------------------------------------------------ *)

Lemma failure_step (messages : list Msg.t) (ctx : Host.t) (st : State)
    (m : Msg.t) :
  last_assistant messages = Some m ->
  auto_retryable m = true ->
  0 <= retryAttempt st <= MAX_RETRIES ->
  retryAttempt (state_of (agent_end_run messages ctx st))
  = (retryAttempt st + 1) mod (MAX_RETRIES + 1).
Proof.
  intros Hlast Ha Hr. unfold agent_end_run, bind.
  rewrite agent_end_cases, Hlast, Ha. cbv zeta. unfold MAX_RETRIES in *.
  destruct (Z.gtb_spec (retryAttempt st + 1) 3) as [Hgt|Hle];
    cbn [state_of fst snd retryAttempt reset_episode].
  - replace (retryAttempt st + 1) with 4 by lia. reflexivity.
  - run. cbn [state_of fst snd retryAttempt set_pendingRetryCleanup].
    rewrite Z.mod_small; lia.
Qed.

(** X15.  Failures of the same auto-retryable kind, one run of [agent_end]
    after the other from an idle closure, move the counter through 1, 2,
    3 and back to 0: after [k] of them it is [k mod 4].  Every fourth
    failure is the one that gives up, and the one after it starts a new
    episode at attempt 1. *)
Theorem failures_cycle
    (k : nat) (messages : list Msg.t) (ctx : Host.t) (st : State)
    (m : Msg.t) :
  last_assistant messages = Some m ->
  auto_retryable m = true ->
  retryAttempt st = 0 ->
  retryAttempt (failures k messages ctx st)
  = Z.of_nat k mod (MAX_RETRIES + 1).
Proof.
  intros Hlast Ha H0.
  induction k as [|k IH]; cbn [failures]; [exact H0|].
  rewrite (failure_step messages ctx _ m Hlast Ha).
  - rewrite IH, Nat2Z.inj_succ, Z.add_mod_idemp_l by (unfold MAX_RETRIES; lia).
    f_equal.
  - rewrite IH. unfold MAX_RETRIES.
    pose proof (Z.mod_pos_bound (Z.of_nat k) (3 + 1)). lia.
Qed.

Lemma failures_cycle_witness :
  retryAttempt (failures 5 Examples.upstream_abort Examples.ctx initial) = 1 /\
  lastResponseWasError
    (failures 5 Examples.upstream_abort Examples.ctx initial) = true.
Proof.
  split; [|vm_compute; reflexivity].
  rewrite (failures_cycle 5 Examples.upstream_abort Examples.ctx initial
             (Examples.assistant "aborted" "upstream aborted connection"));
    vm_compute; reflexivity.
Defined.

(** X16.  For an attempt number [n] from 1 to 69, where the seconds stay
    below 10^21 and [toFixed] prints plain digits, the delay doubles with
    each attempt, and the seconds that the status line announces are the
    delay divided by 1000 with nothing rounded away: [2 ^ n]. *)
Theorem status_line_shows_exact_seconds (n : Z) :
  1 <= n <= 69 ->
  backoff (n + 1) = 2 * backoff n /\
  backoff n = 1000 * 2 ^ n /\
  2 ^ n < 10 ^ 21 /\
  seconds_fixed (backoff n) = number_to_string (2 ^ n) /\
  decimal_value (seconds_fixed (backoff n)) = Some (2 ^ n).
Proof.
  intros Hn. unfold seconds_fixed, backoff, BASE_DELAY_MS.
  assert (Hp : 2 ^ n = 2 * 2 ^ (n - 1)).
  { rewrite <- Z.pow_succ_r by lia. f_equal. lia. }
  assert (Hpos : 0 < 2 ^ (n - 1)) by (apply Z.pow_pos_nonneg; lia).
  assert (Hs : (2000 * 2 ^ (n - 1) + 500) / 1000 = 2 ^ n).
  { rewrite Hp.
    replace (2000 * 2 ^ (n - 1) + 500) with (2 * 2 ^ (n - 1) * 1000 + 500)
      by lia.
    rewrite Z.div_add_l by lia. change (500 / 1000) with 0. lia. }
  replace (n + 1 - 1) with n by lia.
  split; [lia|]. split; [lia|]. split.
  - apply Z.le_lt_trans with (2 ^ 69); [|vm_compute; reflexivity].
    apply Z.pow_le_mono_r; lia.
  - rewrite Hs. split; [reflexivity|].
    apply decimal_value_number. lia.
Qed.

Lemma status_line_shows_exact_seconds_witness :
  seconds_fixed (backoff 3) = str "8" /\ backoff 3 = 8000.
Proof.
  destruct (status_line_shows_exact_seconds 3) as (_ & H2 & _ & H3 & _);
    [vm_compute; split; discriminate|].
  split; [rewrite H3; reflexivity | rewrite H2; reflexivity].
Defined.

Lemma triggers_flag (n : nat) (st : State) :
  triggers (S n) st = set_pendingRetryCleanup true st.
Proof.
  induction n as [|n IH].
  - reflexivity.
  - change (triggers (S (S n)) st)
      with (state_of (triggerRetry (triggers (S n) st))).
    rewrite IH. reflexivity.
Qed.

Lemma scrub_no_marker (l : list Msg.t) : count_markers (scrub l) = 0%nat.
Proof.
  unfold count_markers, scrub.
  induction l as [|m l IH]; cbn [filter]; [reflexivity|].
  destruct (is_marker m) eqn:E; cbn [negb filter]; [exact IH|].
  now rewrite E.
Qed.

(** X17.  [pendingRetryCleanup] is a flag and not a count.  After one
    trigger or several with no context pass in between, a single pass
    removes every marker, keeps every message that is not of role
    "custom", clears the flag and touches nothing else in the closure; the
    pass after it returns [undefined].  Scrubbing a scrubbed list changes
    nothing. *)
Theorem one_pass_serves_all_triggers
    (n : nat) (st : State) (messages again : list Msg.t) :
  let st1 := triggers (S n) st in
  let r := context messages st1 in
  r = (Some (scrub messages), set_pendingRetryCleanup false st, []) /\
  count_markers (scrub messages) = 0%nat /\
  scrub (scrub messages) = scrub messages /\
  (forall m, In m messages -> is_role m "custom" = false ->
             In m (scrub messages)) /\
  context again (state_of r) = (None, set_pendingRetryCleanup false st, []).
Proof.
  intros st1 r. subst r st1.
  rewrite triggers_flag, !context_cases. cbn [state_of fst snd].
  split; [reflexivity|]. split; [apply scrub_no_marker|].
  split; [apply scrub_clean, scrub_no_marker|].
  split; [|reflexivity].
  intros m Hin Hrole. unfold scrub. apply filter_In. split; [exact Hin|].
  unfold is_marker. now rewrite Hrole.
Qed.

Lemma one_pass_serves_all_triggers_witness :
  context second_retry_history (triggers 2 initial)
  = (Some [ Examples.user;
            Examples.assistant "aborted" "upstream aborted connection";
            Examples.assistant "aborted" "upstream aborted connection" ],
     initial, []).
Proof.
  destruct (one_pass_serves_all_triggers 1 initial second_retry_history [])
    as [H _].
  rewrite H. vm_compute. reflexivity.
Defined.

(** X18.  Nothing cancels a pending backoff wait.  If the [/retry] command
    is used while [agent_end] waits, the command sends its trigger and the
    timer, when it fires, sends another: two triggers go out for one
    failure, and the counter keeps the value the automatic retry gave
    it. *)
Theorem manual_retry_during_backoff_sends_twice
    (messages : list Msg.t) (ctx ctx' : Host.t) (st : State) (m : Msg.t) :
  last_assistant messages = Some m ->
  auto_retryable m = true ->
  retryAttempt st < MAX_RETRIES ->
  Host.isIdle ctx' = true ->
  let waiting := agent_end messages ctx st in
  let manual := retry_command ctx' (state_of waiting) in
  let fired := agent_end_resume (state_of manual) in
  result waiting = Awaiting (backoff (retryAttempt st + 1)) /\
  filter is_send (calls waiting ++ calls manual ++ calls fired)
  = [trigger_call; trigger_call] /\
  retryAttempt (state_of fired) = retryAttempt st + 1 /\
  pendingRetryCleanup (state_of fired) = true.
Proof.
  intros Hlast Ha Hn Hidle waiting manual fired.
  subst fired manual waiting.
  rewrite agent_end_cases, Hlast, Ha. cbv zeta.
  destruct (Z.gtb_spec (retryAttempt st + 1) MAX_RETRIES) as [Hgt|_];
    [lia|].
  cbn [state_of fst snd]. rewrite retry_command_cases, Hidle.
  cbn [negb lastResponseWasError].
  repeat split; reflexivity.
Qed.

Lemma manual_retry_during_backoff_sends_twice_witness :
  let waiting := agent_end Examples.upstream_abort Examples.ctx initial in
  let manual := retry_command Examples.ctx (state_of waiting) in
  let fired := agent_end_resume (state_of manual) in
  filter is_send (calls waiting ++ calls manual ++ calls fired)
  = [trigger_call; trigger_call].
Proof.
  apply (manual_retry_during_backoff_sends_twice Examples.upstream_abort
           Examples.ctx Examples.ctx initial
           (Examples.assistant "aborted" "upstream aborted connection"));
    vm_compute; reflexivity.
Defined.
